(** * GeoTaggerAR: indicator analysis and forecast aggregation

    A shallow embedding of the data-aggregation and classification code of
    [src/components/SatelliteDataIndicators.tsx] and
    [src/components/WeatherForecast.tsx], with the properties stated about
    it.

    JavaScript numbers are embedded as extended rationals: a finite number
    is an exact rational, and [NaN], [+Infinity] and [-Infinity] follow the
    IEEE-754 rules for the special cases (division by zero, [0/0],
    comparisons with [NaN], ...).  Rounding of finite results to binary64
    is not modelled, and the two zeros are identified (a zero is [+0]). *)

From Stdlib Require Import ZArith QArith Qround Qabs Lqa Lia.
From Stdlib Require Import List String Ascii Bool Sorted Permutation.
From Stdlib Require Import DecimalString.
Import ListNotations.

Local Open Scope Q_scope.

(** ** JavaScript numbers *)

Module JS.

Inductive number : Type :=
| Fin (q : Q)
| PosInf
| NegInf
| NaN.

Definition Qltb (a b : Q) : bool := negb (Qle_bool b a).

Definition is_nan (x : number) : bool :=
  match x with NaN => true | _ => false end.

Definition is_finite (x : number) : bool :=
  match x with Fin _ => true | _ => false end.

(** The infinity that has the sign of [q] ([NaN] when [q] is zero). *)
Definition signed_inf (q : Q) : number :=
  if Qeq_bool q 0 then NaN else if Qltb 0 q then PosInf else NegInf.

Definition neg (x : number) : number :=
  match x with
  | Fin q => Fin (- q)
  | PosInf => NegInf
  | NegInf => PosInf
  | NaN => NaN
  end.

(** [x + y] *)
Definition add (x y : number) : number :=
  match x, y with
  | NaN, _ | _, NaN => NaN
  | Fin a, Fin b => Fin (a + b)
  | PosInf, NegInf | NegInf, PosInf => NaN
  | PosInf, _ | _, PosInf => PosInf
  | NegInf, _ | _, NegInf => NegInf
  end.

(** [x - y] *)
Definition sub (x y : number) : number := add x (neg y).

(** [x * y] *)
Definition mul (x y : number) : number :=
  match x, y with
  | NaN, _ | _, NaN => NaN
  | Fin a, Fin b => Fin (a * b)
  | Fin a, PosInf | PosInf, Fin a => signed_inf a
  | Fin a, NegInf | NegInf, Fin a => signed_inf (- a)
  | PosInf, PosInf | NegInf, NegInf => PosInf
  | PosInf, NegInf | NegInf, PosInf => NegInf
  end.

(** [x / y]; a zero divisor is [+0]. *)
Definition div (x y : number) : number :=
  match x, y with
  | NaN, _ | _, NaN => NaN
  | Fin a, Fin b => if Qeq_bool b 0 then signed_inf a else Fin (a / b)
  | Fin _, _ => Fin 0
  | PosInf, Fin b => if Qltb b 0 then NegInf else PosInf
  | NegInf, Fin b => if Qltb b 0 then PosInf else NegInf
  | _, _ => NaN
  end.

(** Truncation towards zero. *)
Definition Qtrunc (q : Q) : Z := Z.quot (Qnum q) (Zpos (Qden q)).

(** [x % y]: the remainder has the sign of the dividend. *)
Definition rem (x y : number) : number :=
  match x, y with
  | Fin a, Fin b =>
      if Qeq_bool b 0 then NaN else Fin (a - b * inject_Z (Qtrunc (a / b)))
  | Fin a, PosInf | Fin a, NegInf => Fin a
  | _, _ => NaN
  end.

(** [Math.abs(x)] *)
Definition Math_abs (x : number) : number :=
  match x with
  | Fin q => Fin (Qabs q)
  | PosInf | NegInf => PosInf
  | NaN => NaN
  end.

(** [x < y], [x > y], [x <= y], [x >= y]: false as soon as one side is
    [NaN]. *)
Definition lt (x y : number) : bool :=
  match x, y with
  | NaN, _ | _, NaN => false
  | Fin a, Fin b => Qltb a b
  | NegInf, NegInf | PosInf, _ => false
  | NegInf, _ | Fin _, PosInf => true
  | Fin _, NegInf => false
  end.

Definition le (x y : number) : bool :=
  match x, y with
  | NaN, _ | _, NaN => false
  | Fin a, Fin b => Qle_bool a b
  | NegInf, _ | _, PosInf => true
  | PosInf, _ | Fin _, NegInf => false
  end.

Definition gt (x y : number) : bool := lt y x.
Definition ge (x y : number) : bool := le y x.

(** [Math.max(x, y)] and [Math.min(x, y)]: [NaN] as soon as one argument
    is. *)
Definition max2 (x y : number) : number :=
  match x, y with
  | NaN, _ | _, NaN => NaN
  | _, _ => if lt x y then y else x
  end.

Definition min2 (x y : number) : number :=
  match x, y with
  | NaN, _ | _, NaN => NaN
  | _, _ => if lt y x then y else x
  end.

(** [Math.max(...xs)] and [Math.min(...xs)]; [-Infinity] and [+Infinity]
    on no argument. *)
Definition Math_max (xs : list number) : number := fold_left max2 xs NegInf.
Definition Math_min (xs : list number) : number := fold_left min2 xs PosInf.

(** [parseFloat(x.toFixed(d))].  [toFixed] prints the sign and then the
    integer [n] for which [n / 10^d] is closest to [|x|], the larger one on
    a tie; from [10^21] on, and for [NaN] and the infinities, it prints the
    number itself.  [parseFloat] reads the printed decimal back. *)
Definition toFixed_digits (d : N) (q : Q) : Z :=
  Qfloor (Qabs q * inject_Z (10 ^ Z.of_N d) + (1 # 2)).

Definition parseFloat_toFixed (x : number) (d : N) : number :=
  match x with
  | Fin q =>
      if Qle_bool (inject_Z (10 ^ 21)) (Qabs q) then Fin q
      else
        let r := inject_Z (toFixed_digits d q) / inject_Z (10 ^ Z.of_N d) in
        Fin (if Qltb q 0 then - r else r)
  | _ => x
  end.

(** *** Arrays *)

(** [xs.slice(start, end)] of [Array.prototype]: a negative index counts
    from the end, and both are clamped to the array. *)
Definition slice_index (len i : Z) : Z :=
  (if i <? 0 then Z.max (len + i) 0 else Z.min i len)%Z.

Definition slice {A : Type} (xs : list A) (start stop : Z) : list A :=
  let len := Z.of_nat (List.length xs) in
  let k := slice_index len start in
  let final := slice_index len stop in
  firstn (Z.to_nat (final - k)) (skipn (Z.to_nat k) xs).

(** [xs.slice(start)] *)
Definition slice_from {A : Type} (xs : list A) (start : Z) : list A :=
  slice xs start (Z.of_nat (List.length xs)).

(** [xs.length] as a number. *)
Definition length_number {A : Type} (xs : list A) : number :=
  Fin (inject_Z (Z.of_nat (List.length xs))).

(** [xs.reduce(f)], without an initial value: [None] stands for the
    [TypeError] thrown on an empty array. *)
Definition reduce {A : Type} (f : A -> A -> A) (xs : list A) : option A :=
  match xs with
  | [] => None
  | x :: rest => Some (fold_left f rest x)
  end.

(** *** Objects used as maps

    An object is the list of its own properties in the order of their
    creation: [obj[k] = v] overwrites the property [k] in place when it
    exists and appends it otherwise, and [obj[k]] is [undefined] ([None])
    for a name that was never written.  The names that every object
    inherits ([constructor], [toString], [__proto__], ...) are not used as
    keys: the keys here are dates [yyyy-MM-dd] and the condition groups of
    the weather provider ([Rain], [Clear], ...). *)

Section Objects.

Context {K V : Type} (K_eq_dec : forall a b : K, {a = b} + {a <> b}).

Fixpoint get (obj : list (K * V)) (k : K) : option V :=
  match obj with
  | [] => None
  | (k', v) :: rest => if K_eq_dec k' k then Some v else get rest k
  end.

Fixpoint set (obj : list (K * V)) (k : K) (v : V) : list (K * V) :=
  match obj with
  | [] => [(k, v)]
  | (k', v') :: rest =>
      if K_eq_dec k' k then (k', v) :: rest else (k', v') :: set rest k v
  end.

End Objects.

(** A property name that is an array index: the canonical decimal numeral
    of an integer below [2^32 - 1]. *)
Definition is_digit (c : ascii) : bool :=
  ((48 <=? nat_of_ascii c) && (nat_of_ascii c <=? 57))%nat.

Fixpoint numeral_value (s : string) (acc : N) : N :=
  match s with
  | EmptyString => acc
  | String c rest =>
      numeral_value rest (10 * acc + N.of_nat (nat_of_ascii c - 48))%N
  end.

Definition array_index (s : string) : option N :=
  match s with
  | EmptyString => None
  | String c rest =>
      if forallb is_digit (list_ascii_of_string s)
         && (negb (Ascii.eqb c "0") || String.eqb rest "")
         && (String.length s <=? 10)%nat
         && (numeral_value s 0 <? 2 ^ 32 - 1)%N
      then Some (numeral_value s 0)
      else None
  end.

Fixpoint insert_index (k : string) (ks : list string) : list string :=
  match ks with
  | [] => [k]
  | k' :: rest =>
      if (numeral_value k 0 <=? numeral_value k' 0)%N then k :: ks
      else k' :: insert_index k rest
  end.

Definition sort_indices (ks : list string) : list string :=
  fold_right insert_index [] ks.

Definition is_index (k : string) : bool :=
  match array_index k with Some _ => true | None => false end.

(** [Object.keys(obj)]: the array indices in ascending order, then the
    other names in the order of their creation. *)
Definition Object_keys {V : Type} (obj : list (string * V)) : list string :=
  let ks := map fst obj in
  sort_indices (filter is_index ks) ++ filter (fun k => negb (is_index k)) ks.

(** The order of the extended rationals, as propositions; [NaN] is related
    to nothing. *)
Definition Lt (x y : number) : Prop :=
  match x, y with
  | Fin a, Fin b => a < b
  | NegInf, Fin _ | NegInf, PosInf | Fin _, PosInf => True
  | _, _ => False
  end.

Definition Le (x y : number) : Prop :=
  match x, y with
  | Fin a, Fin b => a <= b
  | NegInf, Fin _ | NegInf, PosInf | Fin _, PosInf => True
  | NegInf, NegInf | PosInf, PosInf => True
  | _, _ => False
  end.

(** Two numbers denote the same value. *)
Definition same (x y : number) : Prop :=
  match x, y with
  | Fin a, Fin b => a == b
  | PosInf, PosInf | NegInf, NegInf | NaN, NaN => True
  | _, _ => False
  end.

(** [Math.round(x)]: the nearest integer, the greater one on a tie. *)
Definition Math_round (x : number) : number :=
  match x with
  | Fin q => Fin (inject_Z (Qfloor (q + (1 # 2))))
  | _ => x
  end.

(** [x || y] on numbers: zero and [NaN] are falsy. *)
Definition or_else (x y : number) : number :=
  match x with
  | Fin q => if Qeq_bool q 0 then y else x
  | NaN => y
  | _ => x
  end.

End JS.

(** ** Calendar dates *)

Module Calendar.

Local Open Scope Z_scope.

Definition msPerDay : Z := 86400000.

(** The civil date (year, month, day) of a day counted from 1970-01-01,
    in the proleptic Gregorian calendar. *)
Definition civil_of_days (days : Z) : Z * Z * Z :=
  let z := days + 719468 in
  let era := z / 146097 in
  let doe := z - era * 146097 in
  let yoe := (doe - doe / 1460 + doe / 36524 - doe / 146096) / 365 in
  let doy := doe - (365 * yoe + yoe / 4 - yoe / 100) in
  let mp := (5 * doy + 2) / 153 in
  let d := doy - (153 * mp + 2) / 5 + 1 in
  let m := if mp <? 10 then mp + 3 else mp - 9 in
  let y := yoe + era * 400 + (if m <=? 2 then 1 else 0) in
  (y, m, d).

Definition digit (n : Z) : ascii := ascii_of_nat (48 + Z.to_nat (n mod 10)).

(** The [width] lowest decimal digits of [n]. *)
Fixpoint decimal (width : nat) (n : Z) : string :=
  match width with
  | O => EmptyString
  | S w => (decimal w (n / 10) ++ String (digit n) EmptyString)%string
  end.

(** The date part of [Date.prototype.toISOString]: four digits for the
    years 0 to 9999, a sign and six digits otherwise. *)
Definition isoDate (days : Z) : string :=
  let '(y, m, d) := civil_of_days days in
  let year :=
    if (0 <=? y) && (y <=? 9999) then decimal 4 y
    else ((if (y <? 0)%Z then "-" else "+") ++ decimal 6 (Z.abs y))%string in
  (year ++ "-" ++ decimal 2 m ++ "-" ++ decimal 2 d)%string.

(** The UTC day of an instant given in milliseconds since the epoch. *)
Definition utcDay (ms : Z) : Z := ms / msPerDay.

End Calendar.

(** ** Satellite indicators
    [src/components/SatelliteDataIndicators.tsx] *)

Module Satellite.

Import JS.

Inductive Trend : Type := up | down | stable.

Inductive Status : Type := good | warning | poor.

Record DataPoint : Type := mkDataPoint {
  date : string;
  value : number
}.

Record IndicatorData : Type := mkIndicatorData {
  name : string;
  current : number;
  unit : string;
  trend : Trend;
  change : number;
  history : list DataPoint;
  status : Status
}.

Record TrendResult : Type := mkTrendResult {
  tr_trend : Trend;
  tr_change : number
}.

(** [getIndicatorStatus(name, value)] *)
Definition getIndicatorStatus (name : string) (value : number) : Status :=
  if (name =? "NDVI")%string then
    if ge value (Fin 0.6) then good
    else if ge value (Fin 0.4) then warning
    else poor
  else if (name =? "Soil Moisture")%string then
    if ge value (Fin 30) && le value (Fin 50) then good
    else if ge value (Fin 20) && le value (Fin 60) then warning
    else poor
  else if (name =? "Temperature")%string then
    if ge value (Fin 15) && le value (Fin 25) then good
    else if ge value (Fin 10) && le value (Fin 30) then warning
    else poor
  else good.

(** [xs.reduce((sum, d) => sum + d.value, 0)] *)
Definition sum_values (xs : list DataPoint) : number :=
  fold_left (fun sum d => add sum (value d)) xs (Fin 0).

(** The value of [change] before the threshold test of [calculateTrend]. *)
Definition percentChange (history : list DataPoint) : number :=
  let recent := slice_from history (-3) in
  let older := slice history (-6) (-3) in
  let recentAvg := div (sum_values recent) (length_number recent) in
  let olderAvg := div (sum_values older) (length_number older) in
  mul (div (sub recentAvg olderAvg) olderAvg) (Fin 100).

(** [calculateTrend(history)] *)
Definition calculateTrend (history : list DataPoint) : TrendResult :=
  if (List.length history <? 2)%nat then mkTrendResult stable (Fin 0)
  else
    let change := percentChange history in
    if lt (Math_abs change) (Fin 2) then mkTrendResult stable (Fin 0)
    else mkTrendResult (if gt change (Fin 0) then up else down)
                       (Math_abs change).

(** *** Ambient effects: [Math.random], [Math.sin] and the clock

    [random n] is the value that the [n]-th call of [Math.random()]
    returns; a computation that draws random numbers threads the number of
    calls made so far.  [sinQ] gives the (rational) value that [Math.sin]
    returns on a finite argument.  [now] is the instant that [new Date()]
    reads, in milliseconds since the epoch. *)

Section Effects.

Variable random : nat -> Q.
Variable sinQ : Q -> Q.
Variable now : Z.

Definition Rand (A : Type) : Type := nat -> A * nat.

Definition ret {A : Type} (a : A) : Rand A := fun calls => (a, calls).

Definition bind {A B : Type} (m : Rand A) (k : A -> Rand B) : Rand B :=
  fun calls => let (a, calls') := m calls in k a calls'.

Notation "x <- m ;; k" := (bind m (fun x => k))
  (at level 61, m at next level, right associativity).

(** [Math.random()] *)
Definition Math_random : Rand number :=
  fun calls => (Fin (random calls), S calls).

(** [Math.sin(x)] *)
Definition Math_sin (x : number) : number :=
  match x with
  | Fin q => Fin (sinQ q)
  | _ => NaN
  end.

(** The body of the loop of [generateHistoricalData], run for
    [i = count - 1] down to [i = 0].  [date.setDate(date.getDate() - i)]
    moves the instant back by [i] whole days (the offset of local time to
    UTC is taken constant over the window), and
    [date.toISOString().split("T")[0]] is the ISO date of its UTC day. *)
Fixpoint generate_loop (baseValue variance : number) (count : nat)
  : Rand (list DataPoint) :=
  match count with
  | O => ret []
  | S i =>
      let date := (now - Z.of_nat i * Calendar.msPerDay)%Z in
      r <- Math_random ;;
      let randomChange := mul (sub r (Fin 0.5)) variance in
      let value := Math_max [Fin 0; add baseValue randomChange] in
      data <- generate_loop baseValue variance i ;;
      ret (mkDataPoint (Calendar.isoDate (Calendar.utcDay date))
                       (parseFloat_toFixed value 2) :: data)
  end.

(** [generateHistoricalData(baseValue, days, variance)] *)
Definition generateHistoricalData (baseValue : number) (days : Z)
  (variance : number) : Rand (list DataPoint) :=
  generate_loop baseValue variance (Z.to_nat days).

(** The choices of the period selector, [days = parseInt(period)]. *)
Definition periods : list Z := [7; 10; 14; 30]%Z.

(** The mock data derived from the location. *)
Definition seed (latitude longitude : number) : number :=
  Math_abs (mul (Math_sin (mul latitude longitude)) (Fin 1000)).

Definition ndviBase (seed : number) : number :=
  add (Fin 0.55) (div (rem seed (Fin 20)) (Fin 100)).

Definition moistureBase (seed : number) : number :=
  add (Fin 30) (rem seed (Fin 20)).

Definition tempBase (seed : number) : number :=
  add (Fin 18) (rem seed (Fin 10)).

(** The [indicators] array of the component, as first built. *)
Definition indicators (latitude longitude : number) (days : Z)
  : Rand (list IndicatorData) :=
  let seed := seed latitude longitude in
  let ndviBase := ndviBase seed in
  let moistureBase := moistureBase seed in
  let tempBase := tempBase seed in
  h1 <- generateHistoricalData ndviBase days (Fin 0.1) ;;
  h2 <- generateHistoricalData moistureBase days (Fin 5) ;;
  h3 <- generateHistoricalData tempBase days (Fin 3) ;;
  ret [ mkIndicatorData "NDVI" (parseFloat_toFixed ndviBase 2) ""
          stable (Fin 0) h1 good;
        mkIndicatorData "Soil Moisture" (parseFloat_toFixed moistureBase 1) "%"
          stable (Fin 0) h2 good;
        mkIndicatorData "Temperature" (parseFloat_toFixed tempBase 1) "Â°C"
          stable (Fin 0) h3 good ].

(** The body of [indicators.forEach]: the trend, the change and the status
    of an indicator are overwritten. *)
Definition update (indicator : IndicatorData) : IndicatorData :=
  let r := calculateTrend (history indicator) in
  mkIndicatorData (name indicator) (current indicator) (unit indicator)
    (tr_trend r) (tr_change r) (history indicator)
    (getIndicatorStatus (name indicator) (current indicator)).

(** The indicators that the component renders. *)
Definition SatelliteDataIndicators (latitude longitude : number) (days : Z)
  : Rand (list IndicatorData) :=
  l <- indicators latitude longitude days ;;
  ret (map update l).

End Effects.

End Satellite.

(** ** Weather forecast
    [src/components/WeatherForecast.tsx] *)

Module Weather.

Import JS.

(** An entry of [data.list], as parsed from the JSON document of the
    provider: [dt] is a Unix time in seconds, the measurements are JSON
    numbers (finite), [rain["3h"]] may be absent, and [weather0] is
    [weather[0]]. *)
Record Condition : Type := mkCondition {
  main : string;
  description : string;
  icon : string
}.

Record Item : Type := mkItem {
  dt : Z;
  main_temp : Q;
  main_humidity : Q;
  wind_speed : Q;
  rain_3h : option Q;
  weather0 : Condition
}.

(** [date] is the instant of a [Date], in milliseconds since the epoch. *)
Record ForecastDay : Type := mkForecastDay {
  date : Z;
  temp_min : number;
  temp_max : number;
  weather_main : string;
  weather_description : string;
  precipitation : number;
  wind : number;
  humidity : number;
  fd_icon : string
}.

(** [v || 0] on an optional JSON number: absent and zero are falsy. *)
Definition or_zero (v : option Q) : number :=
  match v with
  | Some q => if Qeq_bool q 0 then Fin 0 else Fin q
  | None => Fin 0
  end.

(** [c || 0] on a tally. *)
Definition count_or_zero (c : option Z) : Z :=
  match c with
  | Some n => if (n =? 0)%Z then 0%Z else n
  | None => 0%Z
  end.

(** [counts[a] > counts[b]]; a comparison with [undefined] is false. *)
Definition count_gt (counts : list (string * Z)) (a b : string) : bool :=
  match get string_dec counts a, get string_dec counts b with
  | Some x, Some y => (x >? y)%Z
  | _, _ => false
  end.

(** The body of [dayData.forEach]: the count of the condition of [d] goes
    up by one. *)
Definition tally_step (weatherCounts : list (string * Z)) (d : Item)
  : list (string * Z) :=
  let weather := main (weather0 d) in
  set string_dec weatherCounts weather
    (count_or_zero (get string_dec weatherCounts weather) + 1)%Z.

(** The tally [weatherCounts] after the loop. *)
Definition tally (dayData : list Item) : list (string * Z) :=
  fold_left tally_step dayData [].

(** [mainWeather]: the most common condition of the day. *)
Definition mainWeather (dayData : list Item) : option string :=
  let weatherCounts := tally dayData in
  reduce (fun a b => if count_gt weatherCounts a b then a else b)
         (Object_keys weatherCounts).

(** [xs.reduce((a, b) => a + b, 0) / xs.length] *)
Definition average (xs : list number) : number :=
  div (fold_left add xs (Fin 0)) (length_number xs).

Section Forecast.

(** The offset of local time to UTC that is in force at an instant, both
    in milliseconds. *)
Variable offset : Z -> Z.

(** The calendar day on which [format(new Date(ms), "yyyy-MM-dd")] falls,
    counted from 1970-01-01.  A date key stands for its rendering
    [yyyy-MM-dd], which is never an array index: the keys of [dailyData]
    are enumerated in the order of their creation. *)
Definition localDay (ms : Z) : Z := ((ms + offset ms) / Calendar.msPerDay)%Z.

(** The body of [data.list.forEach]: the item joins the group of its day. *)
Definition add_item (dailyData : list (Z * list Item)) (item : Item)
  : list (Z * list Item) :=
  let date := localDay (dt item * 1000) in
  let dailyData :=
    match get Z.eq_dec dailyData date with
    | None => set Z.eq_dec dailyData date []
    | Some _ => dailyData
    end in
  match get Z.eq_dec dailyData date with
  | Some items => set Z.eq_dec dailyData date (items ++ [item])
  | None => dailyData
  end.

(** [dailyData] after the grouping loop. *)
Definition groupByDay (list_ : list Item) : list (Z * list Item) :=
  fold_left add_item list_ [].

(** The aggregates of one day; [new Date(dateStr)] is midnight UTC of the
    day.  [None] stands for the [TypeError] thrown on an empty group. *)
Definition aggregate (dateStr : Z) (dayData : list Item)
  : option ForecastDay :=
  let temps := map (fun d => Fin (main_temp d)) dayData in
  let rain :=
    fold_left (fun sum d => add sum (or_zero (rain_3h d))) dayData (Fin 0) in
  let winds := map (fun d => Fin (wind_speed d)) dayData in
  let humidities := map (fun d => Fin (main_humidity d)) dayData in
  match mainWeather dayData with
  | None => None
  | Some mainWeather =>
      let middleIndex := (List.length dayData / 2)%nat in
      match nth_error dayData middleIndex with
      | None => None
      | Some representativeData =>
          Some (mkForecastDay
                  (dateStr * Calendar.msPerDay)%Z
                  (Math_min temps)
                  (Math_max temps)
                  mainWeather
                  (description (weather0 representativeData))
                  rain
                  (average winds)
                  (average humidities)
                  (icon (weather0 representativeData)))
      end
  end.

(** The loop over [Object.entries(dailyData).slice(0, 7)]: one forecast is
    pushed per entry, and an exception abandons the whole list. *)
Fixpoint aggregate_all (entries : list (Z * list Item))
  : option (list ForecastDay) :=
  match entries with
  | [] => Some []
  | (dateStr, dayData) :: rest =>
      match aggregate dateStr dayData with
      | None => None
      | Some day =>
          match aggregate_all rest with
          | None => None
          | Some dailyForecasts => Some (day :: dailyForecasts)
          end
      end
  end.

(** [dailyForecasts], as computed by [fetchForecast] from [data.list]. *)
Definition dailyForecasts (list_ : list Item) : option (list ForecastDay) :=
  aggregate_all (slice (groupByDay list_) 0 7).

End Forecast.

End Weather.

(** ** Notions used in the statements *)

Module Props.

Import JS.

(** The distinct elements of a list, in the order of their first
    occurrence. *)
Fixpoint distinct {A : Type} (A_eq_dec : forall a b : A, {a = b} + {a <> b})
  (xs : list A) : list A :=
  match xs with
  | [] => []
  | x :: rest => x :: remove A_eq_dec x (distinct A_eq_dec rest)
  end.

(** [k] is not among [ks]. *)
Definition fresh {A : Type} (A_eq_dec : forall a b : A, {a = b} + {a <> b})
  (ks : list A) (k : A) : bool :=
  if in_dec A_eq_dec k ks then false else true.



(** The primary condition labels of a group of items. *)
Definition labels (dayData : list Weather.Item) : list string :=
  map (fun d => Weather.main (Weather.weather0 d)) dayData.

Definition occurrences (ls : list string) (k : string) : nat :=
  count_occ string_dec ls k.




(** The amount of precipitation of an item, none counting as zero. *)
Definition rain_amount (d : Weather.Item) : Q :=
  match Weather.rain_3h d with Some q => q | None => 0 end.

(** The calendar days of the items, in the order of the input. *)
Definition days_of (offset : Z -> Z) (list_ : list Weather.Item) : list Z :=
  map (fun item => Weather.localDay offset (Weather.dt item * 1000)) list_.

(** Midnight UTC of a day, in milliseconds since the epoch. *)
Definition midnight (day : Z) : Z := (day * Calendar.msPerDay)%Z.

(** The dates of a forecast are in strictly ascending order. *)
Definition ascending (days : list Weather.ForecastDay) : Prop :=
  StronglySorted Z.lt (map Weather.date days).

(** The sample that the loop of [generateHistoricalData] pushes [i] days
    before today, when [n] calls of [Math.random] were made before it. *)
Definition sample_at (random : nat -> Q) (now : Z)
  (baseValue variance : number) (i n : nat) : Satellite.DataPoint :=
  Satellite.mkDataPoint
    (Calendar.isoDate (Calendar.utcDay now - Z.of_nat i))
    (parseFloat_toFixed
       (max2 (Fin 0)
          (add baseValue (mul (sub (Fin (random n)) (Fin 0.5)) variance)))
       2).

End Props.

(** ** What the components render *)

Module SatelliteView.

Import JS Satellite.


(** [MiniChart]: the heights of the bars, in percent, one bar per point of
    [data]. *)
Definition MiniChart (data : list DataPoint) : list number :=
  let max := Math_max (map value data) in
  let min := Math_min (map value data) in
  let range := or_else (sub max min) (Fin 1) in
  map (fun point =>
         let height := mul (div (sub (value point) min) range) (Fin 100) in
         Math_max [height; Fin 5])
      data.

End SatelliteView.

Module WeatherView.

Import JS Weather.



Section Fetch.

Variable offset : Z -> Z.



End Fetch.



(** The temperatures of a card: [Math.round(day.temp.max)] and
    [Math.round(day.temp.min)]. *)
Definition high (day : ForecastDay) : number := Math_round (temp_max day).
Definition low (day : ForecastDay) : number := Math_round (temp_min day).


End WeatherView.

(** ** The location dialog
    [LocationCreator], in [src/components/SatelliteDataIndicators.tsx] *)

Module LocationCreator.

Import JS.

(** A string of the dialog is the list of its UTF-16 code units. *)
Definition text : Type := list N.

Definition of_ascii (s : string) : text :=
  map N_of_ascii (list_ascii_of_string s).

(** The white space and the line terminators that [trim] removes. *)
Definition is_white_space (c : N) : bool :=
  existsb (N.eqb c)
    [9; 10; 11; 12; 13; 32; 160; 5760; 8232; 8233; 8239; 8287; 12288;
     65279]%N
  || ((8192 <=? c) && (c <=? 8202))%N.

Definition white (c : N) : Prop := is_white_space c = true.

Fixpoint trimStart (s : text) : text :=
  match s with
  | [] => []
  | c :: rest => if is_white_space c then trimStart rest else s
  end.

Definition trimEnd (s : text) : text := rev (trimStart (rev s)).

(** [s.trim()] *)
Definition trim (s : text) : text := trimEnd (trimStart s).

(** [handleCreate]: [Some name] when [onCreate(name)] is called, [None]
    when the function returns without calling it. *)
Definition handleCreate (folderName : text) : option text :=
  match trim folderName with
  | [] => None
  | _ => Some (trim folderName)
  end.

Section Name.

(** The digits that [Number.prototype.toString] prints for a finite number
    of magnitude [10^21] or more. *)
Variable Number_toString : Q -> string.

(** [x.toFixed(d)] *)
Definition toFixed (x : number) (d : N) : string :=
  match x with
  | NaN => "NaN"
  | PosInf => "Infinity"
  | NegInf => "-Infinity"
  | Fin q =>
      if Qle_bool (inject_Z (10 ^ 21)) (Qabs q) then Number_toString q
      else
        let n := toFixed_digits d q in
        let p := (10 ^ Z.of_N d)%Z in
        ((if Qltb q 0 then "-" else "")
         ++ NilZero.string_of_uint (N.to_uint (Z.to_N (n / p)))
         ++ (if (d =? 0)%N then ""
             else "." ++ Calendar.decimal (N.to_nat d) (n mod p)))%string
  end.

(** The name that the dialog proposes. *)
Definition defaultName (latitude longitude : number) : text :=
  of_ascii ("Location: " ++ toFixed latitude 6 ++ ", "
            ++ toFixed longitude 6)%string.

End Name.

End LocationCreator.

(** ** Further notions used in the statements *)

Module Samples.

(** The calendar day of an item. *)
Definition day_of (offset : Z -> Z) (item : Weather.Item) : Z :=
  Weather.localDay offset (Weather.dt item * 1000).

(** The items of a calendar day, in the order of the input. *)
Definition items_on (offset : Z -> Z) (day : Z) (list_ : list Weather.Item)
  : list Weather.Item :=
  filter (fun item => (day_of offset item =? day)%Z) list_.

(** The temperatures of the items. *)
Definition temperatures (dayData : list Weather.Item) : list Q :=
  map Weather.main_temp dayData.

End Samples.

(** ** Facts about numbers *)

Module JSFacts.

Import JS.

Lemma Qltb_lt (a b : Q) : Qltb a b = true <-> a < b.
Proof.
  unfold Qltb. rewrite negb_true_iff.
  destruct (Qle_bool b a) eqn:E.
  - apply Qle_bool_iff in E. split; [discriminate | lra].
  - split; [intros _ | reflexivity].
    destruct (Qlt_le_dec a b) as [H | H]; [exact H |].
    apply Qle_bool_iff in H. congruence.
Qed.

Lemma Qltb_ge (a b : Q) : Qltb a b = false <-> b <= a.
Proof.
  unfold Qltb. rewrite negb_false_iff. apply Qle_bool_iff.
Qed.

Lemma lt_Lt (x y : number) : lt x y = true <-> Lt x y.
Proof.
  destruct x, y; simpl; try apply Qltb_lt; intuition discriminate.
Qed.

Lemma le_Le (x y : number) : le x y = true <-> Le x y.
Proof.
  destruct x, y; simpl; try apply Qle_bool_iff; intuition discriminate.
Qed.

Lemma gt_Lt (x y : number) : gt x y = true <-> Lt y x.
Proof. apply lt_Lt. Qed.

Lemma ge_Le (x y : number) : ge x y = true <-> Le y x.
Proof. apply le_Le. Qed.

(** Away from [NaN], the order is total. *)
Lemma Le_or_Lt (x y : number) :
  is_nan x = false -> is_nan y = false -> Le x y \/ Lt y x.
Proof.
  destruct x, y; simpl; try discriminate; auto.
  intros _ _. destruct (Qlt_le_dec q0 q); auto.
Qed.

Lemma Lt_not_Le (x y : number) : Lt x y -> ~ Le y x.
Proof. destruct x, y; simpl; auto; lra. Qed.

Lemma Qabs_of_nonneg (q : Q) : 0 <= q -> Qabs q = q.
Proof.
  destruct q as [n d]. unfold Qle. simpl. intros H.
  rewrite Z.abs_eq by lia. reflexivity.
Qed.

Lemma Qtrunc_floor (q : Q) : 0 <= q -> Qtrunc q = Qfloor q.
Proof.
  destruct q as [n d]. unfold Qle, Qtrunc, Qfloor. simpl. intros H.
  apply Z.quot_div_nonneg; lia.
Qed.

(** The remainder of a non-negative number by a positive one. *)
Lemma rem_range (s b : Q) :
  0 <= s -> 0 < b ->
  exists r, rem (Fin s) (Fin b) = Fin r /\ 0 <= r /\ r < b.
Proof.
  intros Hs Hb. unfold rem.
  destruct (Qeq_bool b 0) eqn:E.
  - apply Qeq_bool_eq in E. lra.
  - eexists. split; [reflexivity |].
    assert (Hq : 0 <= s / b).
    { apply Qle_shift_div_l; [exact Hb | lra]. }
    rewrite (Qtrunc_floor _ Hq).
    pose proof (Qfloor_le (s / b)) as Hlo.
    pose proof (Qlt_floor (s / b)) as Hhi.
    rewrite inject_Z_plus in Hhi.
    assert (Hsb : s == s / b * b) by (field; lra).
    set (f := inject_Z (Qfloor (s / b))) in *.
    apply (Qmult_le_compat_r _ _ b) in Hlo; [| lra].
    apply (Qmult_lt_compat_r _ _ b) in Hhi; [| exact Hb].
    change (inject_Z 1) with 1 in Hhi.
    split; lra.
Qed.

Lemma pow10_pos (d : N) : 0 < inject_Z (10 ^ Z.of_N d).
Proof.
  change 0 with (inject_Z 0). rewrite <- Zlt_Qlt.
  apply Z.pow_pos_nonneg; lia.
Qed.

(** Rounding to [d] decimals keeps a number between two multiples of
    [10^-d] that enclose it. *)
Lemma parseFloat_toFixed_between (d : N) (lo hi : Z) (q : Q) :
  0 <= q -> q < inject_Z (10 ^ 21) ->
  inject_Z lo <= q * inject_Z (10 ^ Z.of_N d) ->
  q * inject_Z (10 ^ Z.of_N d) <= inject_Z hi ->
  exists r, parseFloat_toFixed (Fin q) d = Fin r /\
            inject_Z lo / inject_Z (10 ^ Z.of_N d) <= r /\
            r <= inject_Z hi / inject_Z (10 ^ Z.of_N d).
Proof.
  intros H0 Hbig Hlo Hhi. unfold parseFloat_toFixed, toFixed_digits.
  pose proof (pow10_pos d) as HP.
  set (P := inject_Z (10 ^ Z.of_N d)) in *.
  rewrite (Qabs_of_nonneg q H0).
  destruct (Qle_bool (inject_Z (10 ^ 21)) q) eqn:E.
  { apply Qle_bool_iff in E. lra. }
  assert (Hneg : Qltb q 0 = false) by (apply Qltb_ge; exact H0).
  rewrite Hneg. eexists. split; [reflexivity |].
  set (f := Qfloor (q * P + (1 # 2))).
  assert (Hf1 : (lo <= f)%Z).
  { rewrite <- (Qfloor_Z lo). apply Qfloor_resp_le. lra. }
  assert (Hf2 : (f <= hi)%Z).
  { assert (H : (f < hi + 1)%Z); [| lia].
    rewrite Zlt_Qlt, inject_Z_plus. change (inject_Z 1) with 1.
    pose proof (Qfloor_le (q * P + (1 # 2))). fold f in H. lra. }
  rewrite Zle_Qle in Hf1, Hf2.
  split.
  - apply Qle_shift_div_l; [exact HP |].
    assert (inject_Z lo / P * P == inject_Z lo) by (field; lra). lra.
  - apply Qle_shift_div_r; [exact HP |].
    assert (inject_Z hi / P * P == inject_Z hi) by (field; lra). lra.
Qed.


(** Below [10^21], [toFixed] rounds to the nearest multiple of [10^-d]. *)
Lemma parseFloat_toFixed_nearest (d : N) (q : Q) :
  0 <= q -> q < inject_Z (10 ^ 21) ->
  exists n : Z,
    parseFloat_toFixed (Fin q) d =
      Fin (inject_Z n / inject_Z (10 ^ Z.of_N d)) /\
    Qabs (inject_Z n / inject_Z (10 ^ Z.of_N d) - q)
      <= (1 # 2) / inject_Z (10 ^ Z.of_N d).
Proof.
  intros H0 Hbig. unfold parseFloat_toFixed, toFixed_digits.
  pose proof (pow10_pos d) as HP.
  set (P := inject_Z (10 ^ Z.of_N d)) in *.
  rewrite (Qabs_of_nonneg q H0).
  destruct (Qle_bool (inject_Z (10 ^ 21)) q) eqn:E.
  { apply Qle_bool_iff in E. lra. }
  assert (Hneg : Qltb q 0 = false) by (apply Qltb_ge; exact H0).
  rewrite Hneg. eexists. split; [reflexivity |].
  pose proof (Qfloor_le (q * P + (1 # 2))) as Hlo.
  pose proof (Qlt_floor (q * P + (1 # 2))) as Hhi.
  rewrite inject_Z_plus in Hhi. change (inject_Z 1) with 1 in Hhi.
  set (f := inject_Z (Qfloor (q * P + (1 # 2)))) in *.
  assert (E1 : f / P - q == (f - q * P) / P) by (field; lra).
  rewrite E1. unfold Qdiv at 1. rewrite Qabs_Qmult.
  rewrite (Qabs_pos (/ P)) by (apply Qlt_le_weak, Qinv_lt_0_compat; exact HP).
  unfold Qdiv. apply Qmult_le_compat_r.
  - apply Qabs_Qle_condition. split; lra.
  - apply Qlt_le_weak, Qinv_lt_0_compat; exact HP.
Qed.

Lemma sub_NaN (x : number) : sub x NaN = NaN.
Proof. destruct x; reflexivity. Qed.

End JSFacts.

(** ** Facts about objects and first-seen order *)

Module ObjectFacts.

Import JS Props.

Section Keys.

Context {K : Type} (K_eq_dec : forall a b : K, {a = b} + {a <> b}).

Lemma filter_remove_absorbed (p : K -> bool) (x : K) (xs : list K) :
  p x = false -> filter p (remove K_eq_dec x xs) = filter p xs.
Proof.
  intros Hx. induction xs as [| y ys IH]; [reflexivity |]. simpl.
  destruct (K_eq_dec x y) as [<- | Hneq].
  - rewrite Hx. exact IH.
  - simpl. rewrite IH. reflexivity.
Qed.

Lemma filter_fresh_snoc (ks : list K) (x : K) (xs : list K) :
  filter (fresh K_eq_dec (ks ++ [x])) xs =
  filter (fresh K_eq_dec ks) (remove K_eq_dec x xs).
Proof.
  induction xs as [| y ys IH]; [reflexivity |]. simpl.
  destruct (K_eq_dec x y) as [<- | Hneq].
  - unfold fresh at 1.
    destruct (in_dec K_eq_dec x (ks ++ [x])) as [_ | Hn].
    + exact IH.
    + exfalso. apply Hn, in_or_app. right. left. reflexivity.
  - simpl. rewrite IH.
    assert (E : fresh K_eq_dec (ks ++ [x]) y = fresh K_eq_dec ks y).
    { unfold fresh.
      destruct (in_dec K_eq_dec y (ks ++ [x])) as [Hin | Hn],
               (in_dec K_eq_dec y ks) as [Hin' | Hn']; try reflexivity.
      - apply in_app_or in Hin. destruct Hin as [Hin | [-> | []]];
          contradiction.
      - exfalso. apply Hn, in_or_app. left. exact Hin'. }
    rewrite E. reflexivity.
Qed.

Lemma filter_fresh_nil (xs : list K) : filter (fresh K_eq_dec []) xs = xs.
Proof.
  induction xs as [| y ys IH]; [reflexivity |]. simpl. congruence.
Qed.

(** A loop that appends the key of each element to the keys of its state,
    unless the key is there, enumerates the keys in first-seen order. *)
Lemma fold_keys {A S : Type} (keys : S -> list K) (key : A -> K)
  (step : S -> A -> S) :
  (forall s a, keys (step s a) =
               if in_dec K_eq_dec (key a) (keys s) then keys s
               else keys s ++ [key a]) ->
  forall (xs : list A) (s : S),
    keys (fold_left step xs s) =
    keys s ++ filter (fresh K_eq_dec (keys s)) (distinct K_eq_dec (map key xs)).
Proof.
  intros Hstep xs. induction xs as [| a xs IH]; intros s.
  - simpl. rewrite app_nil_r. reflexivity.
  - simpl. rewrite IH, Hstep. unfold fresh at 2.
    destruct (in_dec K_eq_dec (key a) (keys s)) as [Hin | Hn].
    + rewrite filter_remove_absorbed; [reflexivity |].
      unfold fresh. destruct (in_dec K_eq_dec (key a) (keys s));
        [reflexivity | contradiction].
    + rewrite filter_fresh_snoc, <- app_assoc. reflexivity.
Qed.

Lemma distinct_In (xs : list K) (k : K) :
  In k (distinct K_eq_dec xs) <-> In k xs.
Proof.
  induction xs as [| x xs IH]; [reflexivity |]. simpl.
  destruct (K_eq_dec x k) as [-> | Hneq].
  - tauto.
  - rewrite <- IH. split.
    + intros [H | H]; [contradiction |].
      apply in_remove in H. tauto.
    + intros [H | H]; [contradiction |].
      right. apply in_in_remove; [congruence | exact H].
Qed.

Lemma distinct_NoDup (xs : list K) : NoDup (distinct K_eq_dec xs).
Proof.
  induction xs as [| x xs IH]; simpl; constructor.
  - apply remove_In.
  - clear - IH. induction IH as [| y ys Hy Hys IH']; simpl.
    + constructor.
    + destruct (K_eq_dec x y); [exact IH' |].
      constructor; [| exact IH'].
      intros H. apply in_remove in H. tauto.
Qed.

Section Values.

Context {V : Type}.

Implicit Types (obj : list (K * V)) (k : K) (v : V).

Lemma get_None obj k : get K_eq_dec obj k = None <-> ~ In k (map fst obj).
Proof.
  induction obj as [| [k' v'] rest IH]; simpl; [tauto |].
  destruct (K_eq_dec k' k) as [-> | Hneq].
  - split; [discriminate | tauto].
  - rewrite IH. tauto.
Qed.

Lemma get_set_same obj k v : get K_eq_dec (set K_eq_dec obj k v) k = Some v.
Proof.
  induction obj as [| [k' v'] rest IH]; simpl.
  - destruct (K_eq_dec k k); [reflexivity | contradiction].
  - destruct (K_eq_dec k' k) as [-> | Hneq]; simpl.
    + destruct (K_eq_dec k k); [reflexivity | contradiction].
    + destruct (K_eq_dec k' k); [contradiction | exact IH].
Qed.

Lemma get_set_other obj k k' v :
  k <> k' -> get K_eq_dec (set K_eq_dec obj k v) k' = get K_eq_dec obj k'.
Proof.
  intros Hneq. induction obj as [| [k0 v0] rest IH]; simpl.
  - destruct (K_eq_dec k k'); [contradiction | reflexivity].
  - destruct (K_eq_dec k0 k) as [-> | Hneq0]; simpl.
    + destruct (K_eq_dec k k'); [contradiction | reflexivity].
    + destruct (K_eq_dec k0 k'); [reflexivity | exact IH].
Qed.

Lemma set_set obj k v v' :
  set K_eq_dec (set K_eq_dec obj k v) k v' = set K_eq_dec obj k v'.
Proof.
  induction obj as [| [k0 v0] rest IH]; simpl.
  - destruct (K_eq_dec k k); [reflexivity | contradiction].
  - destruct (K_eq_dec k0 k) as [-> | Hneq0]; simpl.
    + destruct (K_eq_dec k k); [reflexivity | contradiction].
    + destruct (K_eq_dec k0 k); [contradiction | rewrite IH; reflexivity].
Qed.

(** Writing a property keeps the order of the keys, a new key going
    last. *)
Lemma keys_set obj k v :
  map fst (set K_eq_dec obj k v) =
  if in_dec K_eq_dec k (map fst obj) then map fst obj
  else map fst obj ++ [k].
Proof.
  induction obj as [| [k0 v0] rest IH]; simpl; [reflexivity |].
  destruct (K_eq_dec k0 k) as [-> | Hneq0]; simpl.
  - reflexivity.
  - rewrite IH. destruct (in_dec K_eq_dec k (map fst rest)); reflexivity.
Qed.

Lemma set_values obj k v (P : V -> Prop) :
  Forall (fun e => P (snd e)) obj -> P v ->
  Forall (fun e => P (snd e)) (set K_eq_dec obj k v).
Proof.
  intros Hobj Hv. induction Hobj as [| [k0 v0] rest H0 Hrest IH]; simpl.
  - constructor; [exact Hv | constructor].
  - destruct (K_eq_dec k0 k); constructor; assumption.
Qed.

End Values.

End Keys.

End ObjectFacts.

(** ** Properties of the satellite indicators *)

Module SatelliteFacts.

Import JS Calendar Satellite Props JSFacts.

Ltac case_Qle a b :=
  let E := fresh "E" in
  destruct (Qle_bool a b) eqn:E;
  [apply Qle_bool_iff in E
  | apply not_true_iff_false in E; rewrite Qle_bool_iff in E].

(** C4: for a numeric value (one that is not [NaN]), the status is the one
    of the threshold table.  NDVI is good iff [0.6 <= v], warning iff
    [0.4 <= v < 0.6] and poor iff [v < 0.4]; Soil Moisture is good iff
    [30 <= v <= 50], warning iff [v] is in [[20,30)] or [(50,60]] and poor
    otherwise; Temperature is good iff [15 <= v <= 25], warning iff [v] is
    in [[10,15)] or [(25,30]] and poor otherwise; any other name is
    good. *)
Theorem getIndicatorStatus_table (v : number) (numeric : is_nan v = false) :
  ((getIndicatorStatus "NDVI" v = good <-> Le (Fin 0.6) v) /\
   (getIndicatorStatus "NDVI" v = warning <->
      Le (Fin 0.4) v /\ Lt v (Fin 0.6)) /\
   (getIndicatorStatus "NDVI" v = poor <-> Lt v (Fin 0.4))) /\
  ((getIndicatorStatus "Soil Moisture" v = good <->
      Le (Fin 30) v /\ Le v (Fin 50)) /\
   (getIndicatorStatus "Soil Moisture" v = warning <->
      (Le (Fin 20) v /\ Lt v (Fin 30)) \/ (Lt (Fin 50) v /\ Le v (Fin 60))) /\
   (getIndicatorStatus "Soil Moisture" v = poor <->
      ~ ((Le (Fin 30) v /\ Le v (Fin 50)) \/
         (Le (Fin 20) v /\ Lt v (Fin 30)) \/
         (Lt (Fin 50) v /\ Le v (Fin 60))))) /\
  ((getIndicatorStatus "Temperature" v = good <->
      Le (Fin 15) v /\ Le v (Fin 25)) /\
   (getIndicatorStatus "Temperature" v = warning <->
      (Le (Fin 10) v /\ Lt v (Fin 15)) \/ (Lt (Fin 25) v /\ Le v (Fin 30))) /\
   (getIndicatorStatus "Temperature" v = poor <->
      ~ ((Le (Fin 15) v /\ Le v (Fin 25)) \/
         (Le (Fin 10) v /\ Lt v (Fin 15)) \/
         (Lt (Fin 25) v /\ Le v (Fin 30))))) /\
  (forall name : string,
      name <> "NDVI"%string -> name <> "Soil Moisture"%string ->
      name <> "Temperature"%string ->
      getIndicatorStatus name v = good).
Proof.
  repeat split.
  all: try (intros; unfold getIndicatorStatus;
            repeat match goal with
            | H : ?n <> ?s |- context [String.eqb ?n ?s] =>
                apply String.eqb_neq in H; rewrite H
            end; reflexivity).
  all: destruct v as [q | | |]; try discriminate numeric;
       intros; unfold getIndicatorStatus, ge, le in *; simpl in *;
       repeat match goal with
       | |- context [Qle_bool ?a ?b] => case_Qle a b
       | H : context [Qle_bool ?a ?b] |- _ => case_Qle a b
       end; simpl in *;
       try discriminate; try reflexivity; try tauto; try lra;
       try (intuition (try discriminate; lra)).
Qed.

Lemma getIndicatorStatus_table_witness :
  is_nan (Fin 45) = false /\
  getIndicatorStatus "Soil Moisture" (Fin 45) = good.
Proof.
  split; [reflexivity |].
  destruct (getIndicatorStatus_table (Fin 45) eq_refl)
    as (_ & (Hgood & _) & _).
  apply Hgood. simpl. split; discriminate.
Defined.

(** The guard of [calculateTrend]: fewer than two points give a stable
    trend. *)
Lemma calculateTrend_guard (history : list DataPoint) :
  (List.length history < 2)%nat ->
  calculateTrend history = mkTrendResult stable (Fin 0).
Proof.
  intros H. unfold calculateTrend.
  apply Nat.ltb_lt in H. rewrite H. reflexivity.
Qed.

(** The trend is stable as soon as the change is below 2 in absolute
    value. *)
Lemma calculateTrend_stable (history : list DataPoint) :
  Lt (Math_abs (percentChange history)) (Fin 2) ->
  calculateTrend history = mkTrendResult stable (Fin 0).
Proof.
  intros H. unfold calculateTrend. apply lt_Lt in H.
  destruct (List.length history <? 2)%nat; [reflexivity |].
  rewrite H. reflexivity.
Qed.

(** The change is zero exactly when the trend is stable. *)
Lemma calculateTrend_stable_iff_zero (history : list DataPoint) :
  tr_trend (calculateTrend history) = stable <->
  same (tr_change (calculateTrend history)) (Fin 0).
Proof.
  unfold calculateTrend.
  destruct (List.length history <? 2)%nat.
  { simpl. split; reflexivity. }
  destruct (lt (Math_abs (percentChange history)) (Fin 2)) eqn:E.
  { simpl. split; reflexivity. }
  cbn [tr_trend tr_change]. split.
  - destruct (gt (percentChange history) (Fin 0)); discriminate.
  - intros H. exfalso.
    destruct (percentChange history) as [c | | |]; simpl in *;
      try contradiction.
    apply Qltb_ge in E. lra.
Qed.

(** The change is not negative unless the percent change is [NaN]. *)
Lemma calculateTrend_nonneg (history : list DataPoint) :
  (2 <= List.length history)%nat ->
  Le (Fin 0) (tr_change (calculateTrend history)) <->
  is_nan (percentChange history) = false.
Proof.
  intros Hlen. unfold calculateTrend.
  apply Nat.ltb_ge in Hlen. rewrite Hlen.
  destruct (percentChange history) as [c | | |]; simpl.
  - destruct (Qltb (Qabs c) 2); simpl; split; trivial; intros _;
      [lra | apply Qabs_nonneg].
  - tauto.
  - tauto.
  - split; [contradiction | discriminate].
Qed.

(** With two or three points the older window is empty: its mean is
    [0 / 0], and the trend comes out as down with the change [NaN]. *)
Lemma calculateTrend_short (history : list DataPoint) :
  (2 <= List.length history <= 3)%nat ->
  slice history (-6) (-3) = [] /\
  calculateTrend history = mkTrendResult down NaN.
Proof.
  intros H.
  destruct history as [| a [| b [| c [| d rest]]]]; simpl in H; try lia.
  - split; [reflexivity |].
    unfold calculateTrend, percentChange.
    change (slice [a; b] (-6) (-3)) with (@nil DataPoint).
    change (div (sum_values []) (length_number (@nil DataPoint))) with NaN.
    rewrite sub_NaN. reflexivity.
  - split; [reflexivity |].
    unfold calculateTrend, percentChange.
    change (slice [a; b; c] (-6) (-3)) with (@nil DataPoint).
    change (div (sum_values []) (length_number (@nil DataPoint))) with NaN.
    rewrite sub_NaN. reflexivity.
Qed.


(** An older window whose mean is zero. *)
Lemma calculateTrend_zero_older :
  let history := map (fun v => mkDataPoint "" (Fin v)) [0; 0; 0; 1; 1; 1] in
  same (div (sum_values (slice history (-6) (-3)))
            (length_number (slice history (-6) (-3)))) (Fin 0) /\
  calculateTrend history = mkTrendResult up PosInf.
Proof. split; reflexivity. Qed.


(** C6: two indicators that have the same name and the same current value
    get the same status from the update of the component, whatever their
    histories (and their previous trend, change and status) are. *)
Theorem status_ignores_history (i1 i2 : IndicatorData)
  (same_name : name i1 = name i2) (same_current : current i1 = current i2) :
  status (update i1) = status (update i2).
Proof.
  unfold update. simpl. rewrite same_name, same_current. reflexivity.
Qed.

Lemma status_ignores_history_witness :
  let i1 := mkIndicatorData "NDVI" (Fin 0.5) "" stable (Fin 0)
              [mkDataPoint "2024-01-01" (Fin 1);
               mkDataPoint "2024-01-02" (Fin 1)] good in
  let i2 := mkIndicatorData "NDVI" (Fin 0.5) "" up (Fin 3)
              [mkDataPoint "2024-01-01" (Fin 0.2)] poor in
  name i1 = name i2 /\ current i1 = current i2 /\
  history i1 <> history i2 /\
  status (update i1) = warning /\ status (update i2) = warning.
Proof.
  intros i1 i2.
  split; [reflexivity |]. split; [reflexivity |].
  split; [discriminate |].
  split; [reflexivity |].
  rewrite <- (status_ignores_history i1 i2 eq_refl eq_refl). reflexivity.
Defined.

Section Component.

Variable random : nat -> Q.
Variable sinQ : Q -> Q.
Variable now : Z.

(** The names, the current values and the statuses that the component
    shows do not depend on the random draws or on the clock. *)
Lemma statuses_deterministic (random' : nat -> Q) (now' : Z)
  (latitude longitude : number) (days : Z) (calls calls' : nat) :
  map (fun i => (name i, current i, status i))
      (fst (SatelliteDataIndicators random sinQ now
              latitude longitude days calls)) =
  map (fun i => (name i, current i, status i))
      (fst (SatelliteDataIndicators random' sinQ now'
              latitude longitude days calls')).
Proof.
  unfold SatelliteDataIndicators, indicators, bind, ret.
  repeat match goal with
  | |- context [generateHistoricalData ?r ?n ?b ?d ?v ?c] =>
      destruct (generateHistoricalData r n b d v c)
  end.
  reflexivity.
Qed.

Lemma seed_nonneg (latitude longitude : number) :
  is_finite latitude = true -> is_finite longitude = true ->
  exists s, seed sinQ latitude longitude = Fin s /\ 0 <= s.
Proof.
  destruct latitude, longitude; try discriminate. intros _ _.
  eexists. split; [reflexivity | apply Qabs_nonneg].
Qed.

(** C10: for finite coordinates, the Soil Moisture baseline
    [30 + seed % 20] lies in [[30, 50)], the current value (its rounding
    to 1 decimal) lies in [[30, 50]], the good band of Soil Moisture is
    exactly [[30, 50]], and the status of the Soil Moisture indicator of
    the component is good. *)
Theorem soil_moisture_good (latitude longitude : number) (days : Z)
  (calls : nat)
  (finite_latitude : is_finite latitude = true)
  (finite_longitude : is_finite longitude = true) :
  exists (base cur : Q) (ndvi soil temp : IndicatorData),
    moistureBase (seed sinQ latitude longitude) = Fin base /\
    30 <= base /\ base < 50 /\
    fst (SatelliteDataIndicators random sinQ now latitude longitude days calls)
      = [ndvi; soil; temp] /\
    name soil = "Soil Moisture"%string /\
    current soil = Fin cur /\ 30 <= cur /\ cur <= 50 /\
    status soil = good /\
    (forall v, getIndicatorStatus "Soil Moisture" v = good <->
               Le (Fin 30) v /\ Le v (Fin 50)).
Proof.
  destruct (seed_nonneg latitude longitude finite_latitude finite_longitude)
    as (s & Hseed & Hs).
  destruct (rem_range s 20 Hs) as (r & Hrem & Hr0 & Hr20); [lra |].
  assert (Hbase : moistureBase (seed sinQ latitude longitude) = Fin (30 + r)).
  { unfold moistureBase. rewrite Hseed, Hrem. reflexivity. }
  destruct (parseFloat_toFixed_between 1 300 500 (30 + r))
    as (cur & Hcur & Hlo & Hhi).
  { lra. }
  { apply Qlt_trans with 50; [lra | reflexivity]. }
  { change (inject_Z (10 ^ Z.of_N 1)) with 10.
    change (inject_Z 300) with 300. lra. }
  { change (inject_Z (10 ^ Z.of_N 1)) with 10.
    change (inject_Z 500) with 500. lra. }
  change (inject_Z 300 / inject_Z (10 ^ Z.of_N 1)) with (300 # 10) in Hlo.
  change (inject_Z 500 / inject_Z (10 ^ Z.of_N 1)) with (500 # 10) in Hhi.
  assert (H30 : 30 <= cur) by lra.
  assert (H50 : cur <= 50) by lra.
  exists (30 + r), cur.
  unfold SatelliteDataIndicators, indicators, bind, ret.
  repeat match goal with
  | |- context [generateHistoricalData ?r ?n ?b ?d ?v ?c] =>
      destruct (generateHistoricalData r n b d v c)
  end.
  cbn [fst map].
  do 3 eexists.
  split; [exact Hbase |].
  split; [lra |]. split; [lra |].
  split; [reflexivity |].
  split; [reflexivity |].
  unfold update; cbn [name current status history unit].
  rewrite Hbase, Hcur.
  split; [reflexivity |].
  split; [exact H30 |]. split; [exact H50 |].
  split.
  - unfold getIndicatorStatus. cbn [String.eqb Ascii.eqb Bool.eqb].
    unfold ge, le.
    apply Qle_bool_iff in H30, H50. rewrite H30, H50. reflexivity.
  - intros v. unfold getIndicatorStatus. cbn [String.eqb Ascii.eqb Bool.eqb].
    unfold ge. rewrite <- !le_Le.
    destruct (le (Fin 30) v), (le v (Fin 50)); cbn [andb];
      try (destruct (le (Fin 20) v && le v (Fin 60)));
      intuition congruence.
Qed.

End Component.

Lemma soil_moisture_good_witness :
  exists soil,
    nth_error
      (fst (SatelliteDataIndicators (fun n => inject_Z (Z.of_nat (n mod 4)) / 4)
              (fun q => q / (1 + q * q)) 1704067200000
              (Fin 41.5) (Fin 2.25) 7 0%nat)) 1 = Some soil /\
    name soil = "Soil Moisture"%string /\ status soil = good.
Proof.
  destruct (soil_moisture_good (fun n => inject_Z (Z.of_nat (n mod 4)) / 4)
              (fun q => q / (1 + q * q)) 1704067200000
              (Fin 41.5) (Fin 2.25) 7 0%nat eq_refl eq_refl)
    as (base & cur & ndvi & soil & temp
        & _ & _ & _ & Hl & Hn & _ & _ & _ & Hs & _).
  exists soil. rewrite Hl. repeat split; assumption.
Defined.

Lemma utcDay_days_before (now : Z) (i : Z) :
  utcDay (now - i * msPerDay) = (utcDay now - i)%Z.
Proof.
  unfold utcDay.
  replace (now - i * msPerDay)%Z with (now + (- i) * msPerDay)%Z by ring.
  rewrite Z.div_add by discriminate. ring.
Qed.

Section History.

Variable random : nat -> Q.
Variable now : Z.
Variables baseValue variance : number.

Lemma generate_loop_spec (count calls : nat) :
  let r := generate_loop random now baseValue variance count calls in
  List.length (fst r) = count /\
  snd r = (calls + count)%nat /\
  forall k, (k < count)%nat ->
    nth_error (fst r) k =
    Some (sample_at random now baseValue variance (count - 1 - k) (calls + k)).
Proof.
  revert calls. induction count as [| i IH]; intros calls.
  - simpl. repeat split; [lia | intros k Hk; lia].
  - cbn [generate_loop]. unfold bind, Math_random, ret.
    specialize (IH (S calls)).
    destruct (generate_loop random now baseValue variance i (S calls))
      as [data calls'] eqn:E.
    cbn [fst snd] in *. destruct IH as (Hlen & Hcalls & Hnth).
    split; [simpl; lia |]. split; [lia |].
    intros [| k] Hk.
    + cbn [nth_error]. unfold sample_at.
      rewrite utcDay_days_before, Nat.add_0_r.
      replace (S i - 1 - 0)%nat with i by lia. reflexivity.
    + cbn [nth_error]. rewrite Hnth by lia.
      replace (S i - 1 - S k)%nat with (i - 1 - k)%nat by lia.
      replace (S calls + k)%nat with (calls + S k)%nat by lia.
      reflexivity.
Qed.

End History.

(** The random change lies within half the variance of zero. *)
Lemma randomChange_range (rnd variance : Q) :
  0 <= rnd -> rnd < 1 -> 0 <= variance ->
  - (variance / 2) <= (rnd + Qopp 0.5) * variance /\
  (rnd + Qopp 0.5) * variance <= variance / 2.
Proof.
  intros H0 H1 Hv.
  change (variance / 2) with (variance * (1 # 2)).
  assert (Ha : 0 <= rnd * variance) by (apply Qmult_le_0_compat; lra).
  assert (Hb : 0 <= (1 - rnd) * variance) by (apply Qmult_le_0_compat; lra).
  split; lra.
Qed.




End SatelliteFacts.

(** ** Properties of the weather forecast *)

Module WeatherFacts.

Import JS Weather Props JSFacts ObjectFacts.

(** *** The enumeration of the keys *)

Lemma insert_index_perm (k : string) (ks : list string) :
  Permutation (insert_index k ks) (k :: ks).
Proof.
  induction ks as [| k' ks IH]; simpl; [reflexivity |].
  destruct (numeral_value k 0 <=? numeral_value k' 0)%N; [reflexivity |].
  rewrite IH. apply perm_swap.
Qed.

Lemma sort_indices_perm (ks : list string) :
  Permutation (sort_indices ks) ks.
Proof.
  induction ks as [| k ks IH]; simpl; [reflexivity |].
  rewrite insert_index_perm, IH. reflexivity.
Qed.

Lemma filter_split_perm {A : Type} (p : A -> bool) (xs : list A) :
  Permutation (filter p xs ++ filter (fun x => negb (p x)) xs) xs.
Proof.
  induction xs as [| x xs IH]; simpl; [reflexivity |].
  destruct (p x); simpl.
  - rewrite IH. reflexivity.
  - rewrite <- Permutation_middle, IH. reflexivity.
Qed.

Lemma Object_keys_perm {V : Type} (obj : list (string * V)) :
  Permutation (Object_keys obj) (map fst obj).
Proof.
  unfold Object_keys. rewrite sort_indices_perm. apply filter_split_perm.
Qed.


(** *** The tally of the conditions *)

Lemma count_or_zero_Some (n : Z) : count_or_zero (Some n) = n.
Proof. simpl. destruct (Z.eqb_spec n 0); congruence. Qed.

Lemma tally_get (dayData : list Item) (acc : list (string * Z)) (k : string) :
  get string_dec (fold_left tally_step dayData acc) k =
  if (occurrences (labels dayData) k =? 0)%nat then get string_dec acc k
  else Some (count_or_zero (get string_dec acc k)
             + Z.of_nat (occurrences (labels dayData) k))%Z.
Proof.
  revert acc. induction dayData as [| d rest IH]; intros acc; [reflexivity |].
  cbn [fold_left]. rewrite IH. unfold occurrences. cbn [labels map count_occ].
  fold (labels rest). unfold tally_step. cbv zeta.
  destruct (string_dec (main (weather0 d)) k) as [-> | Hneq].
  - rewrite get_set_same, count_or_zero_Some.
    destruct (count_occ string_dec (labels rest) k); simpl; f_equal; lia.
  - rewrite get_set_other by exact Hneq. reflexivity.
Qed.

Lemma tally_keys (dayData : list Item) :
  map fst (tally dayData) = distinct string_dec (labels dayData).
Proof.
  unfold tally.
  rewrite (fold_keys string_dec (fun s => map fst s)
             (fun d => main (weather0 d)) tally_step).
  - simpl. apply (filter_fresh_nil string_dec).
  - intros s a. apply keys_set.
Qed.

Lemma tally_count (dayData : list Item) (k : string) :
  In k (labels dayData) ->
  get string_dec (tally dayData) k =
  Some (Z.of_nat (occurrences (labels dayData) k)).
Proof.
  intros Hin. unfold tally.
  rewrite tally_get.
  destruct (Nat.eqb_spec (occurrences (labels dayData) k) 0) as [E | _].
  - exfalso. apply (count_occ_In string_dec) in Hin.
    unfold occurrences in E. lia.
  - reflexivity.
Qed.

(** *** The choice of the dominant condition *)

(** [reduce] keeps the last of the elements of greatest weight. *)
Lemma fold_last_greatest (c : string -> Z) (f : string -> string -> string) :
  (forall a b, f a b = if (c a >? c b)%Z then a else b) ->
  forall rest x,
    exists l1 l2,
      x :: rest = l1 ++ fold_left f rest x :: l2 /\
      (forall k, In k l1 -> (c k <= c (fold_left f rest x))%Z) /\
      (forall k, In k l2 -> (c k < c (fold_left f rest x))%Z).
Proof.
  intros Hf rest. induction rest as [| b rest IH] using rev_ind; intros x.
  - exists [], []. simpl. repeat split; intros k [].
  - rewrite fold_left_app. cbn [fold_left].
    destruct (IH x) as (l1 & l2 & Heq & H1 & H2).
    set (r := fold_left f rest x) in *. rewrite Hf.
    destruct (Z.gtb_spec (c r) (c b)) as [Hgt | Hle].
    + exists l1, (l2 ++ [b]). split.
      * rewrite app_comm_cons, Heq, <- app_assoc. reflexivity.
      * split; [exact H1 |]. intros k Hk. apply in_app_or in Hk.
        destruct Hk as [Hk | [<- | []]]; [apply H2; exact Hk | lia].
    + exists (x :: rest), []. split.
      * rewrite app_comm_cons. reflexivity.
      * split; [| intros k []]. intros k Hk. rewrite Heq in Hk.
        apply in_app_or in Hk. destruct Hk as [Hk | [<- | Hk]].
        -- specialize (H1 k Hk). lia.
        -- lia.
        -- specialize (H2 k Hk). lia.
Qed.



(** The selection of [mainWeather] among the keys of the tally, in the
    order in which [Object.keys] enumerates them: the label selected is
    the last of those of greatest count. *)
Lemma mainWeather_last_greatest (dayData : list Item) :
  dayData <> [] ->
  exists label l1 l2,
    mainWeather dayData = Some label /\
    Object_keys (tally dayData) = l1 ++ label :: l2 /\
    (forall k, In k l1 ->
       (occurrences (labels dayData) k
        <= occurrences (labels dayData) label)%nat) /\
    (forall k, In k l2 ->
       (occurrences (labels dayData) k
        < occurrences (labels dayData) label)%nat).
Proof.
  intros Hne. unfold mainWeather.
  pose proof (Object_keys_perm (tally dayData)) as Hperm.
  rewrite tally_keys in Hperm.
  assert (Hin : forall k, In k (Object_keys (tally dayData)) ->
                          In k (labels dayData)).
  { intros k Hk. apply (distinct_In string_dec).
    apply (Permutation_in _ Hperm Hk). }
  destruct (Object_keys (tally dayData)) as [| x rest] eqn:Ekeys.
  { exfalso. apply Permutation_nil in Hperm.
    destruct dayData as [| d ds]; [congruence | discriminate]. }
  cbn [reduce].
  set (c := fun k => match get string_dec (tally dayData) k with
                     | Some n => n | None => 0%Z end).
  set (f := fun a b => if count_gt (tally dayData) a b then a else b).
  set (g := fun a b : string => if (c a >? c b)%Z then a else b).
  assert (Hc : forall k, In k (x :: rest) ->
                 c k = Z.of_nat (occurrences (labels dayData) k)).
  { intros k Hk. unfold c. rewrite (tally_count _ _ (Hin k Hk)).
    reflexivity. }
  assert (Hfg : forall ys y, In y (x :: rest) -> incl ys (x :: rest) ->
                  fold_left f ys y = fold_left g ys y /\
                  In (fold_left g ys y) (x :: rest)).
  { induction ys as [| b ys IH]; intros y Hy Hys.
    - split; [reflexivity | exact Hy].
    - cbn [fold_left].
      assert (Hb : In b (x :: rest)) by (apply Hys; left; reflexivity).
      assert (E : f y b = g y b).
      { unfold f, g, count_gt, c.
        rewrite (tally_count _ _ (Hin y Hy)), (tally_count _ _ (Hin b Hb)).
        reflexivity. }
      rewrite E. apply IH.
      + unfold g. destruct (c y >? c b)%Z; assumption.
      + intros z Hz. apply Hys. right. exact Hz. }
  destruct (Hfg rest x (or_introl eq_refl) (fun z Hz => or_intror Hz))
    as [Efold Hres].
  rewrite Efold.
  destruct (fold_last_greatest c g (fun a b => eq_refl) rest x)
    as (l1 & l2 & Heq & H1 & H2).
  set (r := fold_left g rest x) in *.
  exists r, l1, l2. split; [reflexivity |]. split; [exact Heq |].
  assert (Hsub : forall k, In k l1 \/ In k l2 -> In k (x :: rest)).
  { intros k Hk. rewrite Heq. apply in_or_app.
    destruct Hk; [left | right; right]; assumption. }
  split; intros k Hk.
  - specialize (H1 k Hk). rewrite (Hc k), (Hc r) in H1; auto. lia.
  - specialize (H2 k Hk). rewrite (Hc k), (Hc r) in H2; auto. lia.
Qed.




(** *** The grouping by day *)

Section Grouping.

Variable offset : Z -> Z.

Lemma add_item_set (dailyData : list (Z * list Item)) (item : Item) :
  add_item offset dailyData item =
  set Z.eq_dec dailyData (localDay offset (dt item * 1000))
    (match get Z.eq_dec dailyData (localDay offset (dt item * 1000)) with
     | Some items => items
     | None => []
     end ++ [item]).
Proof.
  unfold add_item.
  destruct (get Z.eq_dec dailyData (localDay offset (dt item * 1000)))
    as [items |] eqn:E.
  - rewrite E. reflexivity.
  - rewrite get_set_same, set_set. reflexivity.
Qed.

(** The days of the groups are the distinct days of the items, in the
    order in which they are first seen. *)
Lemma groupByDay_keys (list_ : list Item) :
  map fst (groupByDay offset list_) = distinct Z.eq_dec (days_of offset list_).
Proof.
  unfold groupByDay, days_of.
  rewrite (fold_keys Z.eq_dec (fun s => map fst s)
             (fun item => localDay offset (dt item * 1000))
             (add_item offset)).
  - simpl. apply (filter_fresh_nil Z.eq_dec).
  - intros s a. rewrite add_item_set. apply keys_set.
Qed.

(** No group is empty. *)
Lemma groupByDay_nonempty (list_ : list Item) :
  Forall (fun e => snd e <> []) (groupByDay offset list_).
Proof.
  unfold groupByDay.
  assert (H : forall acc, Forall (fun e : Z * list Item => snd e <> []) acc ->
              Forall (fun e => snd e <> [])
                     (fold_left (add_item offset) list_ acc)).
  { induction list_ as [| item rest IH]; intros acc Hacc; [exact Hacc |].
    simpl. apply IH. rewrite add_item_set.
    apply (set_values Z.eq_dec _ _ _ (fun v => v <> [])); [exact Hacc |].
    intros E. apply app_eq_nil in E. destruct E; discriminate. }
  apply H. constructor.
Qed.

End Grouping.

(** *** The truncation to seven days *)

Lemma slice_firstn {A : Type} (xs : list A) (n : nat) :
  slice xs 0 (Z.of_nat n) = firstn n xs.
Proof.
  unfold slice, slice_index. simpl.
  destruct (Z.ltb_spec (Z.of_nat n) 0) as [H | _]; [lia |].
  rewrite (Z.min_l 0) by lia. rewrite Z.sub_0_r. simpl.
  destruct (Nat.le_gt_cases n (List.length xs)) as [Hle | Hgt].
  - rewrite Z.min_l by lia. rewrite Nat2Z.id. reflexivity.
  - rewrite Z.min_r by lia. rewrite Nat2Z.id.
    rewrite !firstn_all2 by lia. reflexivity.
Qed.

Lemma firstn_Forall {A : Type} (P : A -> Prop) (n : nat) (xs : list A) :
  Forall P xs -> Forall P (firstn n xs).
Proof.
  intros H. revert n. induction H as [| x xs Hx Hxs IH]; intros [| n];
    simpl; constructor; auto.
Qed.

Lemma mainWeather_Some (dayData : list Item) :
  dayData <> [] -> exists label, mainWeather dayData = Some label.
Proof.
  intros H.
  destruct (mainWeather_last_greatest dayData H) as (l & _ & _ & E & _).
  exists l. exact E.
Qed.

Lemma aggregate_Some (dateStr : Z) (dayData : list Item) :
  dayData <> [] ->
  exists day, aggregate dateStr dayData = Some day /\
              date day = midnight dateStr.
Proof.
  intros H. unfold aggregate.
  destruct (mainWeather_Some dayData H) as [label ->].
  destruct (nth_error dayData (List.length dayData / 2)) as [d |] eqn:E.
  - eexists. split; reflexivity.
  - exfalso. apply nth_error_None in E.
    destruct dayData as [| d ds]; [congruence |].
    pose proof (Nat.div_lt (List.length (d :: ds)) 2). simpl in *. lia.
Qed.

Lemma aggregate_all_dates (entries : list (Z * list Item)) :
  Forall (fun e => snd e <> []) entries ->
  exists out, aggregate_all entries = Some out /\
              map date out = map midnight (map fst entries).
Proof.
  induction 1 as [| [k v] rest Hv Hrest IH].
  - exists []. split; reflexivity.
  - simpl in Hv. destruct (aggregate_Some k v Hv) as (day & Hday & Hdate).
    destruct IH as (out & Hout & Hdates).
    exists (day :: out). simpl. rewrite Hday, Hout. split; [reflexivity |].
    simpl. rewrite Hdate, Hdates. reflexivity.
Qed.

Section Forecast.

Variable offset : Z -> Z.

(** The forecast has one entry for each of the first seven distinct days
    of the items, in the order in which the days are first seen. *)
Lemma dailyForecasts_dates (list_ : list Item) :
  exists out,
    dailyForecasts offset list_ = Some out /\
    map date out =
    map midnight (firstn 7 (distinct Z.eq_dec (days_of offset list_))).
Proof.
  unfold dailyForecasts. rewrite (slice_firstn _ 7).
  destruct (aggregate_all_dates (firstn 7 (groupByDay offset list_)))
    as (out & Hout & Hdates).
  - apply firstn_Forall, groupByDay_nonempty.
  - exists out. split; [exact Hout |].
    rewrite Hdates, <- firstn_map, groupByDay_keys. reflexivity.
Qed.

(** C8: when the items span eight or more distinct calendar days, the
    forecast has exactly seven entries, those of the first seven distinct
    days in the order in which the days are first seen: the groups are
    truncated as they are, without sorting. *)
Theorem dailyForecasts_first_seven (list_ : list Item)
  (eight_days :
     (8 <= List.length (distinct Z.eq_dec (days_of offset list_)))%nat) :
  exists out,
    dailyForecasts offset list_ = Some out /\
    List.length out = 7%nat /\
    map date out =
    map midnight (firstn 7 (distinct Z.eq_dec (days_of offset list_))).
Proof.
  destruct (dailyForecasts_dates list_) as (out & Hout & Hdates).
  exists out. split; [exact Hout |]. split; [| exact Hdates].
  rewrite <- (length_map date), Hdates, length_map, length_firstn. lia.
Qed.


End Forecast.

(** *** The order of the forecast *)

Lemma remove_sorted (R : Z -> Z -> Prop) (x : Z) (xs : list Z) :
  StronglySorted R xs -> StronglySorted R (remove Z.eq_dec x xs).
Proof.
  induction 1 as [| y ys Hys IH Hy]; simpl; [constructor |].
  destruct (Z.eq_dec x y); [exact IH |].
  constructor; [exact IH |].
  apply Forall_forall. intros z Hz. apply in_remove in Hz.
  rewrite Forall_forall in Hy. apply Hy. tauto.
Qed.

(** The distinct days of a chronological list go up strictly. *)
Lemma distinct_sorted (xs : list Z) :
  StronglySorted Z.le xs -> StronglySorted Z.lt (distinct Z.eq_dec xs).
Proof.
  induction 1 as [| x xs Hxs IH Hx]; simpl; constructor.
  - apply remove_sorted, IH.
  - apply Forall_forall. intros y Hy. apply in_remove in Hy.
    destruct Hy as [Hy Hneq].
    apply (proj1 (distinct_In Z.eq_dec _ _)) in Hy.
    rewrite Forall_forall in Hx. specialize (Hx y Hy). lia.
Qed.

Lemma firstn_sorted (R : Z -> Z -> Prop) (n : nat) (xs : list Z) :
  StronglySorted R xs -> StronglySorted R (firstn n xs).
Proof.
  intros H. revert n. induction H as [| x xs Hxs IH Hx]; intros [| n];
    simpl; constructor.
  - apply IH.
  - apply firstn_Forall, Hx.
Qed.

Lemma midnight_sorted (xs : list Z) :
  StronglySorted Z.lt xs -> StronglySorted Z.lt (map midnight xs).
Proof.
  induction 1 as [| x xs Hxs IH Hx]; simpl; constructor; [exact IH |].
  apply Forall_forall. intros y Hy. apply in_map_iff in Hy.
  destruct Hy as (z & <- & Hz). rewrite Forall_forall in Hx.
  specialize (Hx z Hz). unfold midnight, Calendar.msPerDay. lia.
Qed.

(** C3, as stated, fails: for a sample of 3 January 1970 followed by a
    sample of 2 January, the forecast lists 3 January before 2 January. *)
Lemma dailyForecasts_unsorted_counterexample :
  let later := mkItem 180000 4 80 3 None
                 (mkCondition "Rain" "light rain" "10d") in
  let earlier := mkItem 90000 6 70 2 None
                   (mkCondition "Clear" "clear sky" "01d") in
  exists out,
    dailyForecasts (fun _ => 0%Z) [later; earlier] = Some out /\
    map date out = [172800000; 86400000]%Z /\
    ~ ascending out.
Proof.
  intros later earlier. eexists. split; [reflexivity |].
  split; [reflexivity |].
  unfold ascending. simpl. intros H.
  inversion H as [| x xs _ Hall]. inversion Hall as [| y ys Hlt _].
  discriminate Hlt.
Qed.

(** C3, for a chronological input: when the calendar days of the items
    never go down along the input, the forecast is in strictly ascending
    order of date. *)
Theorem dailyForecasts_ascending (offset : Z -> Z) (list_ : list Item)
  (chronological : Sorted Z.le (days_of offset list_)) :
  exists out, dailyForecasts offset list_ = Some out /\ ascending out.
Proof.
  destruct (dailyForecasts_dates offset list_) as (out & Hout & Hdates).
  exists out. split; [exact Hout |].
  unfold ascending. rewrite Hdates.
  apply midnight_sorted, firstn_sorted, distinct_sorted.
  apply Sorted_StronglySorted; [| exact chronological].
  intros a b c. apply Z.le_trans.
Qed.

Lemma dailyForecasts_ascending_witness :
  let first := mkItem 90000 6 70 2 None
                 (mkCondition "Clear" "clear sky" "01d") in
  let second := mkItem 100800 7 65 2 None
                  (mkCondition "Clear" "clear sky" "01d") in
  let third := mkItem 180000 4 80 3 (Some 1.2)
                 (mkCondition "Rain" "light rain" "10d") in
  Sorted Z.le (days_of (fun _ => 0%Z) [first; second; third]) /\
  exists out,
    dailyForecasts (fun _ => 0%Z) [first; second; third] = Some out /\
    ascending out.
Proof.
  intros first second third.
  assert (H : Sorted Z.le (days_of (fun _ => 0%Z) [first; second; third])).
  { vm_compute. repeat constructor; discriminate. }
  split; [exact H |].
  exact (dailyForecasts_ascending (fun _ => 0%Z) [first; second; third] H).
Defined.

Lemma dailyForecasts_first_seven_witness :
  let item := fun day : Z =>
    mkItem (day * 86400 + 3600) 6 70 2 None
      (mkCondition "Clear" "clear sky" "01d") in
  let list_ := map item [3; 1; 2; 4; 5; 6; 7; 8; 9; 10]%Z in
  (8 <= List.length (distinct Z.eq_dec (days_of (fun _ => 0%Z) list_)))%nat /\
  exists out,
    dailyForecasts (fun _ => 0%Z) list_ = Some out /\
    List.length out = 7%nat /\
    map date out = map midnight [3; 1; 2; 4; 5; 6; 7]%Z.
Proof.
  intros item list_.
  assert (H : (8 <= List.length
                      (distinct Z.eq_dec (days_of (fun _ => 0%Z) list_)))%nat).
  { vm_compute. repeat constructor. }
  split; [exact H |].
  exact (dailyForecasts_first_seven (fun _ => 0%Z) list_ H).
Defined.

(** *** The aggregates of a day *)

Lemma fold_min2 (xs : list Q) (a : Q) :
  exists m, fold_left min2 (map Fin xs) (Fin a) = Fin m /\
            (m = a \/ In m xs) /\ m <= a /\ forall t, In t xs -> m <= t.
Proof.
  revert a. induction xs as [| t xs IH]; intros a.
  - exists a. simpl. repeat split; [auto | lra | intros t []].
  - simpl. destruct (Qltb t a) eqn:E.
    + apply Qltb_lt in E.
      destruct (IH t) as (m & Hm & Hin & Hle & Hall).
      exists m. split; [exact Hm |].
      split; [right; destruct Hin as [-> | Hin]; simpl; auto |].
      split; [lra |]. intros t' [<- | Ht']; [exact Hle | apply Hall, Ht'].
    + apply Qltb_ge in E.
      destruct (IH a) as (m & Hm & Hin & Hle & Hall).
      exists m. split; [exact Hm |].
      split; [destruct Hin as [-> | Hin]; simpl; auto |].
      split; [exact Hle |]. intros t' [<- | Ht']; [lra | apply Hall, Ht'].
Qed.

Lemma fold_max2 (xs : list Q) (a : Q) :
  exists m, fold_left max2 (map Fin xs) (Fin a) = Fin m /\
            (m = a \/ In m xs) /\ a <= m /\ forall t, In t xs -> t <= m.
Proof.
  revert a. induction xs as [| t xs IH]; intros a.
  - exists a. simpl. repeat split; [auto | lra | intros t []].
  - simpl. destruct (Qltb a t) eqn:E.
    + apply Qltb_lt in E.
      destruct (IH t) as (m & Hm & Hin & Hle & Hall).
      exists m. split; [exact Hm |].
      split; [right; destruct Hin as [-> | Hin]; simpl; auto |].
      split; [lra |]. intros t' [<- | Ht']; [exact Hle | apply Hall, Ht'].
    + apply Qltb_ge in E.
      destruct (IH a) as (m & Hm & Hin & Hle & Hall).
      exists m. split; [exact Hm |].
      split; [destruct Hin as [-> | Hin]; simpl; auto |].
      split; [exact Hle |]. intros t' [<- | Ht']; [lra | apply Hall, Ht'].
Qed.

(** [Math.min] and [Math.max] of a non-empty list of finite numbers. *)
Lemma Math_min_least (xs : list Q) :
  xs <> [] ->
  exists m, Math_min (map Fin xs) = Fin m /\ In m xs /\
            forall t, In t xs -> m <= t.
Proof.
  destruct xs as [| x xs]; [congruence | intros _].
  destruct (fold_min2 xs x) as (m & Hm & Hin & Hle & Hall).
  exists m. split; [exact Hm |]. split.
  - destruct Hin as [-> | Hin]; [left; reflexivity | right; exact Hin].
  - intros t [<- | Ht]; [exact Hle | apply Hall, Ht].
Qed.

Lemma Math_max_greatest (xs : list Q) :
  xs <> [] ->
  exists m, Math_max (map Fin xs) = Fin m /\ In m xs /\
            forall t, In t xs -> t <= m.
Proof.
  destruct xs as [| x xs]; [congruence | intros _].
  destruct (fold_max2 xs x) as (m & Hm & Hin & Hle & Hall).
  exists m. split; [exact Hm |]. split.
  - destruct Hin as [-> | Hin]; [left; reflexivity | right; exact Hin].
  - intros t [<- | Ht]; [exact Hle | apply Hall, Ht].
Qed.

Lemma or_zero_amount (d : Item) :
  exists q, or_zero (rain_3h d) = Fin q /\ q == rain_amount d.
Proof.
  unfold or_zero, rain_amount. destruct (rain_3h d) as [q |].
  - destruct (Qeq_bool q 0) eqn:E.
    + exists 0. split; [reflexivity |]. apply Qeq_bool_eq in E.
      symmetry. exact E.
    + exists q. split; reflexivity.
  - exists 0. split; reflexivity.
Qed.






(** *** Sample runs *)

(** Two days of samples, with the temperatures 10, 15, 20 and 5, 8. *)
Example two_days_temperature_ranges :
  let item := fun (dt : Z) (t : Q) =>
    mkItem dt t 70 2 None (mkCondition "Clear" "clear sky" "01d") in
  option_map (map (fun day => (date day, temp_min day, temp_max day)))
    (dailyForecasts (fun _ => 0%Z)
       [item 90000%Z 10; item 100800%Z 15; item 111600%Z 20;
        item 180000%Z 5; item 190800%Z 8])
  = Some [(86400000%Z, Fin 10, Fin 20); (172800000%Z, Fin 5, Fin 8)].
Proof. reflexivity. Qed.

(** A group of one sample. *)
Example single_sample_day :
  let d := mkItem 90000 12 70 2 (Some 0.4)
             (mkCondition "Snow" "light snow" "13d") in
  aggregate 1 [d] =
  Some (mkForecastDay 86400000 (Fin 12) (Fin 12) "Snow" "light snow"
          (Fin (0 + 0.4)) (Fin ((0 + 2) / inject_Z 1))
          (Fin ((0 + 70) / inject_Z 1)) "13d").
Proof. reflexivity. Qed.

(** Array indices come first among the keys of the tally. *)
Example index_labels_first :
  let item := fun label : string =>
    mkItem 90000 12 70 2 None (mkCondition label "" "") in
  Object_keys (tally (map item ["b"; "10"; "a"; "9"]%string)) =
  ["9"; "10"; "b"; "a"]%string.
Proof. reflexivity. Qed.

End WeatherFacts.

(** ** Further properties of the satellite indicators *)

Module SatelliteMore.

Import JS Calendar Satellite SatelliteView Props JSFacts SatelliteFacts.

(** *** The windows of [calculateTrend] *)

Lemma slice_bounds {A : Type} (xs : list A) (start stop : Z) (k n : nat) :
  slice_index (Z.of_nat (List.length xs)) start = Z.of_nat k ->
  slice_index (Z.of_nat (List.length xs)) stop = Z.of_nat (k + n) ->
  slice xs start stop = firstn n (skipn k xs).
Proof.
  intros Hk Hn. unfold slice. rewrite Hk, Hn, Nat2Z.id.
  replace (Z.to_nat (Z.of_nat (k + n) - Z.of_nat k)) with n by lia.
  reflexivity.
Qed.

Lemma skipn_prefix {A : Type} (pre xs : list A) :
  skipn (List.length pre) (pre ++ xs) = xs.
Proof.
  rewrite skipn_app, skipn_all, Nat.sub_diag. reflexivity.
Qed.

Lemma slice_last_three {A : Type} (pre : list A) (a b c : A) :
  slice_from (pre ++ [a; b; c]) (-3) = [a; b; c].
Proof.
  unfold slice_from.
  rewrite (slice_bounds _ _ _ (List.length pre) 3).
  - rewrite skipn_prefix. reflexivity.
  - unfold slice_index. rewrite length_app. simpl. lia.
  - unfold slice_index. rewrite length_app. simpl List.length.
    destruct (Z.ltb_spec (Z.of_nat (List.length pre + 3)) 0); lia.
Qed.

Lemma slice_older_three {A : Type} (pre : list A) (a b c d e f : A) :
  slice (pre ++ [a; b; c; d; e; f]) (-6) (-3) = [a; b; c].
Proof.
  rewrite (slice_bounds _ _ _ (List.length pre) 3).
  - rewrite skipn_prefix. reflexivity.
  - unfold slice_index. rewrite length_app. simpl. lia.
  - unfold slice_index. rewrite length_app. simpl. lia.
Qed.

(** The percent change of a history of six points or more, from the
    values of its last six points. *)
Lemma percentChange_last_six (pre : list DataPoint) (a b c d e f : DataPoint) :
  percentChange (pre ++ [a; b; c; d; e; f]) =
  let recentAvg :=
    div (add (add (add (Fin 0) (value d)) (value e)) (value f))
        (Fin (inject_Z 3)) in
  let olderAvg :=
    div (add (add (add (Fin 0) (value a)) (value b)) (value c))
        (Fin (inject_Z 3)) in
  mul (div (sub recentAvg olderAvg) olderAvg) (Fin 100).
Proof.
  unfold percentChange.
  replace (pre ++ [a; b; c; d; e; f]) with ((pre ++ [a; b; c]) ++ [d; e; f])
    at 1 2 by (rewrite <- app_assoc; reflexivity).
  rewrite slice_last_three, slice_older_three. reflexivity.
Qed.

Lemma six_points {A : Type} (six : list A) :
  List.length six = 6%nat ->
  exists a b c d e f, six = [a; b; c; d; e; f].
Proof.
  destruct six as [| a [| b [| c [| d [| e [| f [| g rest]]]]]]];
    try discriminate.
  intros _. exists a, b, c, d, e, f. reflexivity.
Qed.

Lemma calculateTrend_six (pre : list DataPoint) (a b c d e f : DataPoint) :
  calculateTrend (pre ++ [a; b; c; d; e; f]) =
  let change := percentChange (pre ++ [a; b; c; d; e; f]) in
  if lt (Math_abs change) (Fin 2) then mkTrendResult stable (Fin 0)
  else mkTrendResult (if gt change (Fin 0) then up else down)
                     (Math_abs change).
Proof.
  unfold calculateTrend.
  assert (H : (List.length (pre ++ [a; b; c; d; e; f]) <? 2)%nat = false).
  { apply Nat.ltb_ge. rewrite length_app. simpl. lia. }
  rewrite H. reflexivity.
Qed.

(** X1: on six points or more, [calculateTrend] depends only on the values
    of the last six points: neither the earlier points nor the dates of
    the points change the result. *)
Theorem calculateTrend_last_six_values
  (pre1 pre2 six1 six2 : list DataPoint)
  (six_points1 : List.length six1 = 6%nat)
  (same_values : map value six1 = map value six2) :
  calculateTrend (pre1 ++ six1) = calculateTrend (pre2 ++ six2).
Proof.
  assert (six_points2 : List.length six2 = 6%nat).
  { rewrite <- (length_map value), <- same_values, length_map.
    exact six_points1. }
  destruct (six_points six1 six_points1) as (a & b & c & d & e & f & ->).
  destruct (six_points six2 six_points2) as (a' & b' & c' & d' & e' & f' & ->).
  injection same_values as Ha Hb Hc Hd He Hf.
  rewrite !calculateTrend_six, !percentChange_last_six.
  rewrite Ha, Hb, Hc, Hd, He, Hf. reflexivity.
Qed.

Lemma calculateTrend_last_six_values_witness :
  let p := fun (v : Q) => mkDataPoint "2024-01-01" (Fin v) in
  let six1 := [p 1; p 2; p 3; p 3; p 3; p 3] in
  let six2 := map (fun x => mkDataPoint "" (value x)) six1 in
  List.length six1 = 6%nat /\ map value six1 = map value six2 /\
  calculateTrend ([p 40] ++ six1) = calculateTrend six2.
Proof.
  intros p six1 six2. split; [reflexivity |]. split; [reflexivity |].
  exact (calculateTrend_last_six_values [p 40] [] six1 six2
           eq_refl eq_refl).
Defined.

(** With finite values and an older window of non-zero sum, the percent
    change is finite. *)
Lemma percentChange_finite (pre : list DataPoint) (a b c d e f : DataPoint)
  (o1 o2 o3 r1 r2 r3 : Q) :
  map value [a; b; c; d; e; f] = map Fin [o1; o2; o3; r1; r2; r3] ->
  ~ (0 + o1 + o2 + o3) / inject_Z 3 == 0 ->
  percentChange (pre ++ [a; b; c; d; e; f]) =
  Fin (((0 + r1 + r2 + r3) / inject_Z 3 + - ((0 + o1 + o2 + o3) / inject_Z 3))
       / ((0 + o1 + o2 + o3) / inject_Z 3) * 100).
Proof.
  intros values Ho. injection values as Ha Hb Hc Hd He Hf.
  rewrite percentChange_last_six. cbv zeta.
  rewrite Ha, Hb, Hc, Hd, He, Hf. cbn [add].
  assert (E3 : Qeq_bool (inject_Z 3) 0 = false) by reflexivity.
  unfold div at 2 3 4. rewrite E3. cbn [sub neg add]. unfold div.
  destruct (Qeq_bool ((0 + o1 + o2 + o3) / inject_Z 3) 0) eqn:E0.
  { apply Qeq_bool_eq in E0. contradiction. }
  reflexivity.
Qed.


(** *** The values of a generated history *)

Lemma max2_zero_eq (x : Q) :
  0 <= x -> exists m, max2 (Fin 0) (Fin x) = Fin m /\ m == x.
Proof.
  intros Hx. unfold max2, lt. destruct (Qltb 0 x) eqn:E.
  - exists x. split; reflexivity.
  - exists 0. split; [reflexivity |]. apply Qltb_ge in E. lra.
Qed.

Lemma history_values_near (random : nat -> Q) (now : Z)
  (baseValue variance : Q) (days : Z) (calls : nat) :
  (forall n, 0 <= random n /\ random n < 1) ->
  0 <= variance -> variance / 2 <= baseValue ->
  baseValue + variance / 2 < inject_Z (10 ^ 21) ->
  forall p,
    In p (fst (generateHistoricalData random now (Fin baseValue) days
                 (Fin variance) calls)) ->
    exists n : Z,
      value p = Fin (inject_Z n / 100) /\
      baseValue - variance / 2 - (1 # 200) <= inject_Z n / 100 /\
      inject_Z n / 100 <= baseValue + variance / 2 + (1 # 200).
Proof.
  intros Hrand Hvar Hbase Hbig p Hp. unfold generateHistoricalData in Hp.
  pose proof (generate_loop_spec random now (Fin baseValue) (Fin variance)
                (Z.to_nat days) calls) as H.
  cbv zeta in H. destruct H as (Hlen & _ & Hnth).
  apply In_nth_error in Hp. destruct Hp as [k Hk].
  assert (Hlt : (k < Z.to_nat days)%nat).
  { rewrite <- Hlen. apply nth_error_Some. congruence. }
  rewrite (Hnth k Hlt) in Hk. injection Hk as <-.
  unfold sample_at. cbn [value sub neg add mul].
  set (draw := (random (calls + k)%nat + Qopp 0.5) * variance).
  destruct (Hrand (calls + k)%nat) as [R0 R1].
  destruct (randomChange_range _ _ R0 R1 Hvar) as [D1 D2].
  fold draw in D1, D2.
  change (variance / 2) with (variance * (1 # 2)) in *.
  destruct (max2_zero_eq (baseValue + draw)) as (m & -> & Hm); [lra |].
  destruct (parseFloat_toFixed_nearest 2 m) as (n & -> & Hn); [lra | lra |].
  change (inject_Z (10 ^ Z.of_N 2)) with 100 in *.
  exists n. split; [reflexivity |].
  change ((1 # 2) / 100) with (1 # 200) in Hn.
  apply Qabs_Qle_condition in Hn. destruct Hn as [Hn1 Hn2].
  split; lra.
Qed.

(** X3: when the baseline is at least half the variance (no value is
    clamped at 0) and below [10^21], every value of the history is a
    multiple of 0.01 within half the variance plus 0.005 of the
    baseline. *)
Theorem generateHistoricalData_near_baseline (random : nat -> Q) (now : Z)
  (baseValue variance : Q) (days : Z) (calls : nat)
  (random_range : forall n, 0 <= random n /\ random n < 1)
  (variance_nonneg : 0 <= variance)
  (no_clamping : variance / 2 <= baseValue)
  (below_exponent : baseValue + variance / 2 < inject_Z (10 ^ 21)) :
  Forall (fun p =>
            exists (n : Z) (v : Q),
              v = inject_Z n / 100 /\ value p = Fin v /\
              Qabs (v - baseValue) <= variance / 2 + (1 # 200))
    (fst (generateHistoricalData random now (Fin baseValue) days
            (Fin variance) calls)).
Proof.
  apply Forall_forall. intros p Hp.
  destruct (history_values_near random now baseValue variance days calls
              random_range variance_nonneg no_clamping below_exponent p Hp)
    as (n & Hvalue & Hlo & Hhi).
  exists n, (inject_Z n / 100). split; [reflexivity |].
  split; [exact Hvalue |].
  apply Qabs_Qle_condition.
  change (variance / 2) with (variance * (1 # 2)) in *.
  split; lra.
Qed.

(** The draws of a history: as many as it has samples. *)
Lemma generateHistoricalData_calls (random : nat -> Q) (now : Z)
  (baseValue variance : number) (days : Z) (calls : nat) :
  List.length (fst (generateHistoricalData random now baseValue days
                      variance calls)) = Z.to_nat days /\
  snd (generateHistoricalData random now baseValue days variance calls)
  = (calls + Z.to_nat days)%nat.
Proof.
  pose proof (generate_loop_spec random now baseValue variance
                (Z.to_nat days) calls) as H.
  cbv zeta in H. destruct H as (Hlen & Hcalls & _).
  split; assumption.
Qed.

(** X4: for any [days], the history has [max(days, 0)] samples and the
    function calls [Math.random] once per sample; with [days <= 0] the
    history is empty and no number is drawn. *)
Theorem generateHistoricalData_draws (random : nat -> Q) (now : Z)
  (baseValue variance : number) (days : Z) (calls : nat) :
  let run := generateHistoricalData random now baseValue days variance calls in
  Z.of_nat (List.length (fst run)) = Z.max days 0 /\
  snd run = (calls + List.length (fst run))%nat /\
  ((days <= 0)%Z -> run = ([], calls)).
Proof.
  intros run.
  destruct (generateHistoricalData_calls random now baseValue variance
              days calls) as [Hlen Hcalls].
  fold run in Hlen, Hcalls.
  split; [rewrite Hlen; lia |]. split; [rewrite Hlen; exact Hcalls |].
  intros Hd. destruct run as [data calls'] eqn:E. cbn [fst snd] in *.
  replace (Z.to_nat days) with 0%nat in * by lia.
  destruct data; [| discriminate]. f_equal. lia.
Qed.

(** *** Histories of positive values *)

Lemma last_six {A : Type} (xs : list A) :
  (6 <= List.length xs)%nat ->
  exists pre a b c d e f, xs = pre ++ [a; b; c; d; e; f].
Proof.
  intros H.
  rewrite <- (firstn_skipn (List.length xs - 6) xs).
  destruct (six_points (skipn (List.length xs - 6) xs))
    as (a & b & c & d & e & f & E).
  { rewrite length_skipn. lia. }
  exists (firstn (List.length xs - 6) xs), a, b, c, d, e, f.
  rewrite E. reflexivity.
Qed.

(** On six points or more, all of positive value, the change is a finite
    number that is not negative. *)
Lemma calculateTrend_positive (history : list DataPoint) :
  (6 <= List.length history)%nat ->
  (forall p, In p history -> exists v, value p = Fin v /\ 0 < v) ->
  exists ch,
    tr_change (calculateTrend history) = Fin ch /\
    ((tr_trend (calculateTrend history) = stable /\ ch = 0) \/
     (tr_trend (calculateTrend history) <> stable /\ 2 <= ch)).
Proof.
  intros Hlen Hpos.
  destruct (last_six history Hlen) as (pre & a & b & c & d & e & f & ->).
  assert (Hin : forall p, In p [a; b; c; d; e; f] ->
                          exists v, value p = Fin v /\ 0 < v).
  { intros p Hp. apply Hpos, in_or_app. right. exact Hp. }
  destruct (Hin a) as (o1 & Ha & Ho1); [simpl; tauto |].
  destruct (Hin b) as (o2 & Hb & Ho2); [simpl; tauto |].
  destruct (Hin c) as (o3 & Hc & Ho3); [simpl; tauto |].
  destruct (Hin d) as (r1 & Hd & _); [simpl; tauto |].
  destruct (Hin e) as (r2 & He & _); [simpl; tauto |].
  destruct (Hin f) as (r3 & Hf & _); [simpl; tauto |].
  rewrite calculateTrend_six. cbv zeta.
  rewrite (percentChange_finite pre a b c d e f o1 o2 o3 r1 r2 r3).
  - cbn [Math_abs lt gt].
    match goal with
    | |- context [Qltb (Qabs ?x) 2] => set (ch := x)
    end.
    destruct (Qltb (Qabs ch) 2) eqn:E2.
    + exists 0. split; [reflexivity |]. left. split; reflexivity.
    + exists (Qabs ch). split; [reflexivity |]. right.
      apply Qltb_ge in E2. split; [| exact E2]. cbn [tr_trend].
      destruct (Qltb 0 ch); discriminate.
  - simpl. rewrite Ha, Hb, Hc, Hd, He, Hf. reflexivity.
  - intros E.
    assert (H : (0 + o1 + o2 + o3) / inject_Z 3 * 3 == 0 + o1 + o2 + o3)
      by (change (inject_Z 3) with 3; field).
    rewrite E in H. lra.
Qed.

(** *** The indicators of the component *)

Section Component.

Variable random : nat -> Q.
Variable sinQ : Q -> Q.
Variable now : Z.

(** The three baselines, for finite coordinates. *)
Lemma baselines (latitude longitude : number) :
  is_finite latitude = true -> is_finite longitude = true ->
  exists r20 r10 : Q,
    0 <= r20 /\ r20 < 20 /\ 0 <= r10 /\ r10 < 10 /\
    ndviBase (seed sinQ latitude longitude) = Fin (0.55 + r20 / 100) /\
    moistureBase (seed sinQ latitude longitude) = Fin (30 + r20) /\
    tempBase (seed sinQ latitude longitude) = Fin (18 + r10).
Proof.
  intros Hlat Hlon.
  destruct (seed_nonneg sinQ latitude longitude Hlat Hlon) as (s & Hseed & Hs).
  destruct (rem_range s 20 Hs) as (r20 & H20 & Ha & Hb); [lra |].
  destruct (rem_range s 10 Hs) as (r10 & H10 & Hc & Hd); [lra |].
  exists r20, r10. unfold ndviBase, moistureBase, tempBase.
  rewrite Hseed, H20, H10. repeat split; assumption.
Qed.

(** The indicators that the component renders, one by one. *)
Lemma component_indicators (latitude longitude : number) (days : Z)
  (calls : nat) :
  let s := seed sinQ latitude longitude in
  let n := Z.to_nat days in
  fst (SatelliteDataIndicators random sinQ now latitude longitude days calls)
  = map update
      [ mkIndicatorData "NDVI" (parseFloat_toFixed (ndviBase s) 2) ""
          stable (Fin 0)
          (fst (generateHistoricalData random now (ndviBase s) days
                  (Fin 0.1) calls)) good;
        mkIndicatorData "Soil Moisture"
          (parseFloat_toFixed (moistureBase s) 1) "%" stable (Fin 0)
          (fst (generateHistoricalData random now (moistureBase s) days
                  (Fin 5) (calls + n)%nat)) good;
        mkIndicatorData "Temperature" (parseFloat_toFixed (tempBase s) 1)
          "Â°C" stable (Fin 0)
          (fst (generateHistoricalData random now (tempBase s) days
                  (Fin 3) (calls + n + n)%nat)) good ].
Proof.
  intros s n. unfold SatelliteDataIndicators, indicators, bind, ret.
  fold s.
  pose proof (generateHistoricalData_calls random now (ndviBase s) (Fin 0.1)
                days calls) as [_ H1].
  destruct (generateHistoricalData random now (ndviBase s) days (Fin 0.1)
              calls) as [h1 c1].
  cbn [fst snd] in *. subst c1. fold n.
  pose proof (generateHistoricalData_calls random now (moistureBase s)
                (Fin 5) days (calls + n)%nat) as [_ H2].
  destruct (generateHistoricalData random now (moistureBase s) days (Fin 5)
              (calls + n)%nat) as [h2 c2].
  cbn [fst snd] in *. subst c2. fold n.
  destruct (generateHistoricalData random now (tempBase s) days (Fin 3)
              (calls + n + n)%nat) as [h3 c3].
  reflexivity.
Qed.



(** X6: in the component, for finite coordinates, a period among 7, 10,
    14 and 30 days and draws in [[0, 1)], the change of every indicator is
    a finite number: 0 with a stable trend, or at least 2 with a trend up
    or down. *)
Theorem component_changes_finite (latitude longitude : number) (days : Z)
  (calls : nat)
  (finite_latitude : is_finite latitude = true)
  (finite_longitude : is_finite longitude = true)
  (days_choice : In days periods)
  (random_range : forall n, 0 <= random n /\ random n < 1) :
  Forall (fun ind =>
            exists ch, change ind = Fin ch /\
                       ((trend ind = stable /\ ch = 0) \/
                        (trend ind <> stable /\ 2 <= ch)))
    (fst (SatelliteDataIndicators random sinQ now latitude longitude
            days calls)).
Proof.
  assert (Hdays : (6 <= Z.to_nat days)%nat).
  { unfold periods in days_choice. simpl in days_choice.
    intuition (subst; simpl; lia). }
  destruct (baselines latitude longitude finite_latitude finite_longitude)
    as (r20 & r10 & Ha & Hb & Hc & Hd & Hn & Hm & Ht).
  rewrite component_indicators. cbv zeta. rewrite Hn, Hm, Ht.
  change (r20 / 100) with (r20 * (1 # 100)).
  assert (Htrend : forall (b v : Q) (n : nat),
            v / 2 <= b -> 0 <= v -> b + v / 2 < 1000 ->
            (1 # 100) < b - v / 2 ->
            let h := fst (generateHistoricalData random now (Fin b) days
                            (Fin v) n) in
            exists ch,
              tr_change (calculateTrend h) = Fin ch /\
              ((tr_trend (calculateTrend h) = stable /\ ch = 0) \/
               (tr_trend (calculateTrend h) <> stable /\ 2 <= ch))).
  { intros b v n H1 H2 H3 H4 h.
    apply calculateTrend_positive.
    - unfold h.
      rewrite (proj1 (generateHistoricalData_calls random now (Fin b) (Fin v)
                        days n)). exact Hdays.
    - intros p Hp.
      destruct (history_values_near random now b v days n random_range
                  H2 H1) with (p := p) as (x & Ex & Lx & _).
      + apply Qlt_trans with 1000; [exact H3 | reflexivity].
      + exact Hp.
      + exists (inject_Z x / 100). split; [exact Ex |].
        change (v / 2) with (v * (1 # 2)) in *. lra. }
  unfold update. cbn [map name current status history unit].
  repeat constructor; cbn [change trend]; apply Htrend;
    change (0.1 / 2) with (1 # 20); change (5 / 2) with (5 # 2);
    change (3 / 2) with (3 # 2); lra.
Qed.

End Component.

(** *** The bars of the chart *)

Lemma values_of_points (data : list DataPoint) (vs : list Q) :
  map value data = map Fin vs ->
  forall point, In point data -> exists v, In v vs /\ value point = Fin v.
Proof.
  intros H point Hp. apply (in_map value) in Hp. rewrite H in Hp.
  apply in_map_iff in Hp. destruct Hp as (v & Hv & Hin).
  exists v. split; [exact Hin | symmetry; exact Hv].
Qed.

(** The height of the bar of a value [v], between the least value [lo] and
    the greatest [hi] of the chart. *)
Lemma Math_max_five (h : Q) :
  Math_max [Fin h; Fin 5] = if Qltb h 5 then Fin 5 else Fin h.
Proof. reflexivity. Qed.

Lemma bar_height (lo hi v : Q) :
  lo <= v -> v <= hi ->
  exists q,
    Math_max [mul (div (sub (Fin v) (Fin lo))
                       (or_else (sub (Fin hi) (Fin lo)) (Fin 1)))
                  (Fin 100);
              Fin 5] = Fin q /\
    5 <= q /\ q <= 100 /\
    (hi == lo -> q = 5) /\
    (v == hi -> ~ hi == lo -> q == 100).
Proof.
  intros Hlo Hhi. cbn [sub neg add or_else].
  destruct (Qeq_bool (hi + - lo) 0) eqn:E.
  - apply Qeq_bool_eq in E.
    change (mul (div (Fin (v + - lo)) (Fin 1)) (Fin 100))
      with (Fin ((v + - lo) / 1 * 100)).
    set (h := (v + - lo) / 1 * 100).
    assert (Hh : h == 0) by (unfold h; field_simplify; lra).
    assert (Hlt : Qltb h 5 = true) by (apply Qltb_lt; lra).
    rewrite Math_max_five, Hlt.
    exists 5. repeat split; lra.
  - apply Qeq_bool_neq in E.
    assert (Eh : mul (div (Fin (v + - lo)) (Fin (hi + - lo))) (Fin 100)
                 = Fin ((v + - lo) / (hi + - lo) * 100)).
    { cbn [div]. destruct (Qeq_bool (hi + - lo) 0) eqn:E'.
      - apply Qeq_bool_eq in E'. contradiction.
      - reflexivity. }
    rewrite Eh, Math_max_five.
    set (h := (v + - lo) / (hi + - lo) * 100).
    assert (Hpos : 0 < hi + - lo) by lra.
    assert (Hh : h * (hi + - lo) == (v - lo) * 100)
      by (unfold h; field; lra).
    assert (H0 : 0 <= h).
    { apply Qnot_lt_le. intros Hneg.
      assert (h * (hi + - lo) < 0 * (hi + - lo))
        by (apply Qmult_lt_compat_r; assumption). lra. }
    assert (H100 : h <= 100).
    { apply Qnot_lt_le. intros Hbig.
      assert (100 * (hi + - lo) < h * (hi + - lo))
        by (apply Qmult_lt_compat_r; assumption). lra. }
    destruct (Qltb h 5) eqn:E5.
    + apply Qltb_lt in E5. exists 5. repeat split; try lra.
      intros Hv _. exfalso.
      assert (h == 100) by (unfold h; rewrite Hv; field; lra). lra.
    + apply Qltb_ge in E5. exists h. repeat split; try lra.
      intros Hv _. unfold h. rewrite Hv. field. lra.
Qed.

(** X7: for a non-empty chart of finite values there is one bar per
    point, every bar is between 5 and 100 percent high, all bars are 5
    percent high when all the values are equal, and a bar is 100 percent
    high when they are not. *)
Theorem MiniChart_bars (data : list DataPoint) (vs : list Q)
  (finite_values : map value data = map Fin vs)
  (nonempty : data <> []) :
  List.length (MiniChart data) = List.length data /\
  (forall bar, In bar (MiniChart data) ->
     exists q, bar = Fin q /\ 5 <= q /\ q <= 100) /\
  ((forall v w, In v vs -> In w vs -> v == w) ->
   forall bar, In bar (MiniChart data) -> bar = Fin 5) /\
  ((exists v w, In v vs /\ In w vs /\ ~ v == w) ->
   exists q, In (Fin q) (MiniChart data) /\ q == 100).
Proof.
  assert (Hvs : vs <> []).
  { intros ->. destruct data; [congruence | discriminate]. }
  unfold MiniChart. rewrite finite_values.
  destruct (WeatherFacts.Math_max_greatest vs Hvs) as (hi & -> & Hhi_in & Hhi).
  destruct (WeatherFacts.Math_min_least vs Hvs) as (lo & -> & Hlo_in & Hlo).
  split; [apply length_map |]. split; [| split].
  - intros bar Hbar. apply in_map_iff in Hbar.
    destruct Hbar as (point & <- & Hpoint).
    destruct (values_of_points data vs finite_values point Hpoint)
      as (v & Hv & ->).
    destruct (bar_height lo hi v (Hlo v Hv) (Hhi v Hv))
      as (q & -> & H5 & H100 & _).
    exists q. repeat split; assumption.
  - intros Hall bar Hbar. apply in_map_iff in Hbar.
    destruct Hbar as (point & <- & Hpoint).
    destruct (values_of_points data vs finite_values point Hpoint)
      as (v & Hv & ->).
    destruct (bar_height lo hi v (Hlo v Hv) (Hhi v Hv))
      as (q & -> & _ & _ & Heq & _).
    rewrite (Heq (Hall hi lo Hhi_in Hlo_in)). reflexivity.
  - intros (v & w & Hv & Hw & Hne).
    assert (Hdiff : ~ hi == lo).
    { intros E. apply Hne.
      pose proof (Hlo v Hv). pose proof (Hhi v Hv).
      pose proof (Hlo w Hw). pose proof (Hhi w Hw). lra. }
    assert (Hpoint : exists point, In point data /\ value point = Fin hi).
    { apply (in_map Fin) in Hhi_in. rewrite <- finite_values in Hhi_in.
      apply in_map_iff in Hhi_in. destruct Hhi_in as (point & E & Hin).
      exists point. split; assumption. }
    destruct Hpoint as (point & Hpoint & Evalue).
    destruct (bar_height lo hi hi (Hlo hi Hhi_in) (Hhi hi Hhi_in))
      as (q & Eq & _ & _ & _ & Htop).
    exists q. split; [| apply Htop; [reflexivity | exact Hdiff]].
    apply in_map_iff. exists point. split; [| exact Hpoint].
    rewrite Evalue. exact Eq.
Qed.

Lemma MiniChart_bars_witness :
  let data := map (fun v => mkDataPoint "2024-01-01" (Fin v)) [1; 2; 3] in
  map value data = map Fin [1; 2; 3] /\ data <> [] /\
  List.length (MiniChart data) = 3%nat.
Proof.
  intros data. split; [reflexivity |]. split; [discriminate |].
  exact (proj1 (MiniChart_bars data [1; 2; 3] eq_refl
                  (fun E => @nil_cons _ _ _ (eq_sym E)))).
Defined.

(** *** Sample runs *)

Lemma quarter_draws (n : nat) :
  0 <= inject_Z (Z.of_nat (n mod 4)) / 4 /\
  inject_Z (Z.of_nat (n mod 4)) / 4 < 1.
Proof.
  split.
  - apply Qle_shift_div_l; [reflexivity |].
    rewrite Qmult_0_l. change 0 with (inject_Z 0). rewrite <- Zle_Qle. lia.
  - apply Qlt_shift_div_r; [reflexivity |].
    rewrite Qmult_1_l. change 4 with (inject_Z 4). rewrite <- Zlt_Qlt.
    pose proof (Nat.mod_upper_bound n 4). lia.
Qed.


Lemma generateHistoricalData_near_baseline_witness :
  let data :=
    fst (generateHistoricalData (fun n => inject_Z (Z.of_nat (n mod 4)) / 4)
           1704067200000 (Fin 0.6) 7 (Fin 0.1) 0%nat) in
  0 <= 0.1 /\ 0.1 / 2 <= 0.6 /\ 0.6 + 0.1 / 2 < inject_Z (10 ^ 21) /\
  Forall (fun p => exists (n : Z) (v : Q),
                     v = inject_Z n / 100 /\ value p = Fin v /\
                     Qabs (v - 0.6) <= 0.1 / 2 + (1 # 200)) data.
Proof.
  intros data.
  assert (H1 : 0 <= 0.1) by discriminate.
  assert (H2 : 0.1 / 2 <= 0.6) by discriminate.
  assert (H3 : 0.6 + 0.1 / 2 < inject_Z (10 ^ 21)) by reflexivity.
  split; [exact H1 |]. split; [exact H2 |]. split; [exact H3 |].
  exact (generateHistoricalData_near_baseline
           (fun n => inject_Z (Z.of_nat (n mod 4)) / 4)
           1704067200000 0.6 0.1 7 0%nat quarter_draws H1 H2 H3).
Defined.


Lemma component_changes_finite_witness :
  In 7%Z periods /\
  Forall (fun ind => is_finite (change ind) = true)
    (fst (SatelliteDataIndicators (fun n => inject_Z (Z.of_nat (n mod 4)) / 4)
            (fun q => q / (1 + q * q)) 1704067200000
            (Fin 41.5) (Fin 2.25) 7 0%nat)).
Proof.
  assert (H7 : In 7%Z periods) by (simpl; tauto).
  split; [exact H7 |].
  generalize (component_changes_finite
                (fun n => inject_Z (Z.of_nat (n mod 4)) / 4)
                (fun q => q / (1 + q * q)) 1704067200000
                (Fin 41.5) (Fin 2.25) 7 0%nat eq_refl eq_refl H7
                quarter_draws).
  apply Forall_impl. intros ind (ch & -> & _). reflexivity.
Defined.

End SatelliteMore.

(** ** Further properties of the weather forecast *)

Module WeatherMore.

Import JS Weather WeatherView Props Samples JSFacts ObjectFacts WeatherFacts.

(** *** The groups of the days *)

Section Groups.

Variable offset : Z -> Z.

Lemma fold_add_item_get (list_ : list Item) (acc : list (Z * list Item))
  (d : Z) :
  get Z.eq_dec (fold_left (add_item offset) list_ acc) d =
  match items_on offset d list_ with
  | [] => get Z.eq_dec acc d
  | items =>
      Some (match get Z.eq_dec acc d with Some v => v | None => [] end
            ++ items)
  end.
Proof.
  revert acc. induction list_ as [| x rest IH]; intros acc; [reflexivity |].
  cbn [fold_left]. rewrite IH, add_item_set. unfold items_on. cbn [filter].
  fold (items_on offset d rest).
  unfold day_of at 1.
  destruct (Z.eqb_spec (localDay offset (dt x * 1000)) d) as [E | Hne].
  - rewrite E, get_set_same.
    destruct (items_on offset d rest); [reflexivity |].
    rewrite <- app_assoc. reflexivity.
  - rewrite get_set_other by exact Hne. reflexivity.
Qed.

Lemma items_on_nonempty (d : Z) (list_ : list Item) :
  In d (days_of offset list_) -> items_on offset d list_ <> [].
Proof.
  unfold days_of. intros Hin. apply in_map_iff in Hin.
  destruct Hin as (item & E & Hitem). intros Hnil.
  assert (H : In item (items_on offset d list_)).
  { apply filter_In. split; [exact Hitem |]. apply Z.eqb_eq. exact E. }
  rewrite Hnil in H. exact H.
Qed.

Lemma entries_by_keys {V : Type} (f : Z -> V) (obj : list (Z * V)) :
  NoDup (map fst obj) ->
  (forall k, In k (map fst obj) -> get Z.eq_dec obj k = Some (f k)) ->
  obj = map (fun k => (k, f k)) (map fst obj).
Proof.
  induction obj as [| [k v] rest IH]; intros Hnd Hget; [reflexivity |].
  inversion Hnd as [| k' ks Hk Hrest]; subst. cbn [map fst].
  assert (Ev : v = f k).
  { specialize (Hget k (or_introl eq_refl)). simpl in Hget.
    destruct (Z.eq_dec k k); [congruence | contradiction]. }
  rewrite Ev. f_equal. apply IH; [exact Hrest |].
  intros k' Hk'. specialize (Hget k' (or_intror Hk')). simpl in Hget.
  destruct (Z.eq_dec k k') as [<- | _]; [contradiction | exact Hget].
Qed.

(** The groups are those of the distinct days, each with the items of its
    day. *)
Lemma groupByDay_groups (list_ : list Item) :
  groupByDay offset list_ =
  map (fun d => (d, items_on offset d list_))
      (distinct Z.eq_dec (days_of offset list_)).
Proof.
  rewrite <- groupByDay_keys. apply entries_by_keys.
  - rewrite groupByDay_keys. apply distinct_NoDup.
  - intros k Hk. unfold groupByDay. rewrite fold_add_item_get.
    rewrite groupByDay_keys in Hk.
    apply (proj1 (distinct_In Z.eq_dec _ _)) in Hk.
    pose proof (items_on_nonempty k list_ Hk) as Hne.
    destruct (items_on offset k list_); [congruence | reflexivity].
Qed.

Lemma filter_filter_other (ks : list Z) (k : Z) (xs : list Item) :
  ~ In k ks ->
  map (fun d =>
         items_on offset d
           (filter (fun x => negb (day_of offset x =? k)%Z) xs))
      ks
  = map (fun d => items_on offset d xs) ks.
Proof.
  intros Hk. apply map_ext_in. intros d Hd. unfold items_on.
  induction xs as [| x xs IH]; [reflexivity |]. cbn [filter].
  destruct (Z.eqb_spec (day_of offset x) k) as [E | Hne]; cbn [negb filter].
  - rewrite IH.
    destruct (Z.eqb_spec (day_of offset x) d) as [E' | _]; [| reflexivity].
    exfalso. apply Hk. rewrite <- E, E'. exact Hd.
  - rewrite IH. reflexivity.
Qed.

Lemma groups_permutation (ks : list Z) (xs : list Item) :
  NoDup ks -> (forall x, In x xs -> In (day_of offset x) ks) ->
  Permutation (List.concat (map (fun d => items_on offset d xs) ks)) xs.
Proof.
  revert xs. induction ks as [| k ks IH]; intros xs Hnd Hall.
  - destruct xs as [| x xs]; [reflexivity |].
    destruct (Hall x (or_introl eq_refl)).
  - inversion Hnd as [| k' ks' Hk Hrest]; subst. cbn [map List.concat].
    rewrite <- (filter_filter_other ks k xs Hk).
    rewrite IH;
      [apply (filter_split_perm (fun x => (day_of offset x =? k)%Z))
      | exact Hrest |].
    intros x Hx. apply filter_In in Hx. destruct Hx as [Hx Hne].
    destruct (Hall x Hx) as [E | Hin]; [| exact Hin].
    apply negb_true_iff, Z.eqb_neq in Hne. congruence.
Qed.

(** X8: the grouping loop makes one group per distinct day, in the order
    in which the days are first seen, holding the items of the day in the
    order of the input; a day without item has no group, and the groups
    together hold each item of the input once. *)
Theorem groupByDay_partition (list_ : list Item) :
  groupByDay offset list_ =
    map (fun d => (d, items_on offset d list_))
        (distinct Z.eq_dec (days_of offset list_)) /\
  (forall d, get Z.eq_dec (groupByDay offset list_) d =
             match items_on offset d list_ with
             | [] => None
             | items => Some items
             end) /\
  Permutation (List.concat (map snd (groupByDay offset list_))) list_.
Proof.
  split; [apply groupByDay_groups |]. split.
  - intros d. unfold groupByDay. rewrite fold_add_item_get. reflexivity.
  - rewrite groupByDay_groups, map_map. cbn [snd].
    apply groups_permutation; [apply distinct_NoDup |].
    intros x Hx. apply (distinct_In Z.eq_dec). unfold days_of.
    apply in_map_iff. exists x. split; [reflexivity | exact Hx].
Qed.

Lemma aggregate_all_each (entries : list (Z * list Item))
  (out : list ForecastDay) :
  aggregate_all entries = Some out ->
  Forall2 (fun e day => aggregate (fst e) (snd e) = Some day) entries out.
Proof.
  revert out. induction entries as [| [k v] rest IH]; intros out H.
  - injection H as <-. constructor.
  - simpl in H. destruct (aggregate k v) as [day |] eqn:Eday; [| discriminate].
    destruct (aggregate_all rest) as [days |]; [| discriminate].
    injection H as <-. constructor; [exact Eday | apply IH; reflexivity].
Qed.

Lemma Forall2_map_left {A B C : Type} (f : A -> B) (R : B -> C -> Prop)
  (xs : list A) (ys : list C) :
  Forall2 R (map f xs) ys -> Forall2 (fun x y => R (f x) y) xs ys.
Proof.
  revert ys. induction xs as [| x xs IH]; intros ys H;
    inversion H; subst; constructor; auto.
Qed.

(** X9: the forecast has one entry for each of the first seven distinct
    days (fewer when the input has fewer days, none for an empty input),
    and the entry of a day is the aggregate of the items of that day, in
    the order of the input. *)
Theorem dailyForecasts_by_day (list_ : list Item) :
  exists out,
    dailyForecasts offset list_ = Some out /\
    List.length out =
      Nat.min 7 (List.length (distinct Z.eq_dec (days_of offset list_))) /\
    Forall2 (fun d day => aggregate d (items_on offset d list_) = Some day)
            (firstn 7 (distinct Z.eq_dec (days_of offset list_))) out.
Proof.
  destruct (dailyForecasts_dates offset list_) as (out & Hout & _).
  exists out. split; [exact Hout |].
  unfold dailyForecasts in Hout. rewrite (slice_firstn _ 7) in Hout.
  apply aggregate_all_each in Hout.
  rewrite groupByDay_groups, firstn_map in Hout.
  apply Forall2_map_left in Hout. split; [| exact Hout].
  rewrite <- (Forall2_length Hout). apply length_firstn.
Qed.

End Groups.

(** *** The dominant condition *)




(** *** The fields of an aggregated day *)

Lemma aggregate_fields (dateStr : Z) (dayData : list Item)
  (day : ForecastDay) :
  aggregate dateStr dayData = Some day ->
  date day = midnight dateStr /\
  temp_min day = Math_min (map Fin (temperatures dayData)) /\
  temp_max day = Math_max (map Fin (temperatures dayData)) /\
  Some (weather_main day) = mainWeather dayData /\
  (exists d, nth_error dayData (List.length dayData / 2) = Some d /\
             weather_description day = description (weather0 d) /\
             fd_icon day = icon (weather0 d)) /\
  precipitation day =
    fold_left (fun sum d => add sum (or_zero (rain_3h d))) dayData (Fin 0) /\
  wind day = average (map Fin (map wind_speed dayData)) /\
  humidity day = average (map Fin (map main_humidity dayData)).
Proof.
  unfold aggregate, temperatures. rewrite !map_map.
  destruct (mainWeather dayData) as [label |]; [| discriminate].
  destruct (nth_error dayData (List.length dayData / 2)) as [d |];
    [| discriminate].
  intros H. injection H as <-. cbn.
  repeat split. exists d. repeat split.
Qed.

(** X11: the forecast of a day of one sample reports the values of that
    sample: its temperature as minimum and maximum, its own condition,
    description and icon, its precipitation (0 when absent), wind and
    humidity. *)
Theorem aggregate_single (dateStr : Z) (d : Item) :
  exists day,
    aggregate dateStr [d] = Some day /\
    date day = midnight dateStr /\
    temp_min day = Fin (main_temp d) /\
    temp_max day = Fin (main_temp d) /\
    weather_main day = main (weather0 d) /\
    weather_description day = description (weather0 d) /\
    fd_icon day = icon (weather0 d) /\
    same (precipitation day) (Fin (rain_amount d)) /\
    same (wind day) (Fin (wind_speed d)) /\
    same (humidity day) (Fin (main_humidity d)).
Proof.
  destruct (aggregate_Some dateStr [d]) as (day & Hday & _); [discriminate |].
  exists day. split; [exact Hday |].
  destruct (aggregate_fields _ _ _ Hday)
    as (Hdate & Hmin & Hmax & Hmain & (d' & Hd' & Hdesc & Hicon)
        & Hrain & Hwind & Hhum).
  injection Hd' as <-.
  split; [exact Hdate |]. split; [exact Hmin |]. split; [exact Hmax |].
  split.
  { unfold mainWeather, tally, Object_keys in Hmain.
    cbn [fold_left tally_step get set map fst filter] in Hmain.
    destruct (is_index (main (weather0 d))); cbn in Hmain; congruence. }
  split; [exact Hdesc |]. split; [exact Hicon |].
  rewrite Hrain, Hwind, Hhum. cbn [fold_left map].
  destruct (or_zero_amount d) as (q & -> & Hq).
  unfold average, length_number. cbn [fold_left add List.length div].
  change (Qeq_bool (inject_Z (Z.of_nat 1)) 0) with false. cbn iota.
  cbn [same]. change (inject_Z (Z.of_nat 1)) with 1.
  repeat split; [rewrite Hq; ring | field | field].
Qed.

(** *** The cards of the days *)

(** X12: on the card of an aggregated day the rounded low temperature is
    at most the rounded high temperature, and every temperature of the
    day lies between the low minus half a degree and the high plus half a
    degree. *)
Theorem card_high_low (dateStr : Z) (dayData : list Item)
  (day : ForecastDay)
  (aggregated : aggregate dateStr dayData = Some day) :
  exists hi lo : Z,
    high day = Fin (inject_Z hi) /\ low day = Fin (inject_Z lo) /\
    (lo <= hi)%Z /\
    forall t, In t (temperatures dayData) ->
      inject_Z lo - (1 # 2) <= t /\ t < inject_Z hi + (1 # 2).
Proof.
  destruct (aggregate_fields _ _ _ aggregated) as (_ & Hmin & Hmax & _).
  assert (Hne : temperatures dayData <> []).
  { unfold temperatures. intros E. apply map_eq_nil in E. subst dayData.
    discriminate aggregated. }
  destruct (Math_min_least _ Hne) as (tmin & Emin & Hmin_in & Hmin_le).
  destruct (Math_max_greatest _ Hne) as (tmax & Emax & Hmax_in & Hmax_le).
  unfold high, low. rewrite Hmin, Hmax, Emin, Emax. cbn [Math_round].
  exists (Qfloor (tmax + (1 # 2))), (Qfloor (tmin + (1 # 2))).
  split; [reflexivity |]. split; [reflexivity |]. split.
  - apply Qfloor_resp_le. specialize (Hmin_le tmax Hmax_in). lra.
  - intros t Ht.
    pose proof (Qfloor_le (tmin + (1 # 2))) as Hlo.
    pose proof (Qlt_floor (tmax + (1 # 2))) as Hhi.
    rewrite inject_Z_plus in Hhi. change (inject_Z 1) with 1 in Hhi.
    specialize (Hmin_le t Ht). specialize (Hmax_le t Ht).
    split; lra.
Qed.


(** *** The request *)


Lemma card_high_low_witness :
  let item := fun t : Q =>
    mkItem 90000 t 70 2 (Some 0.4) (mkCondition "Rain" "light rain" "10d") in
  exists day,
    aggregate 1 (map item [11.4; 12.5; 9.6]) = Some day /\
    high day = Fin 13 /\ low day = Fin 10.
Proof.
  intros item.
  destruct (aggregate_Some 1 (map item [11.4; 12.5; 9.6])) as (day & H & _);
    [discriminate |].
  exists day. split; [exact H |].
  destruct (card_high_low 1 _ day H) as (hi & lo & Hhi & Hlo & _).
  vm_compute in H. injection H as <-. split; reflexivity.
Defined.


(** *** The order of the samples of a day *)







End WeatherMore.

(** ** Properties of the location dialog *)

Module LocationFacts.

Import JS LocationCreator JSFacts.

Lemma trimStart_split (s : text) :
  exists before,
    s = before ++ trimStart s /\ Forall white before /\
    match trimStart s with
    | [] => True
    | c :: _ => is_white_space c = false
    end.
Proof.
  induction s as [| c s IH].
  - exists []. repeat split. constructor.
  - simpl. destruct (is_white_space c) eqn:E.
    + destruct IH as (before & Hs & Hws & Hhd).
      exists (c :: before). split; [simpl; congruence |].
      split; [constructor; assumption | exact Hhd].
    + exists []. repeat split; [constructor | exact E].
Qed.

Lemma trimStart_fixed (s : text) :
  match s with [] => True | c :: _ => is_white_space c = false end ->
  trimStart s = s.
Proof.
  destruct s as [| c s]; [reflexivity |]. simpl. intros ->. reflexivity.
Qed.

Lemma trimStart_white (s : text) : Forall white s -> trimStart s = [].
Proof.
  induction 1 as [| c s Hc Hs IH]; [reflexivity |]. simpl.
  rewrite Hc. exact IH.
Qed.

Lemma trimStart_nil (s : text) : trimStart s = [] -> Forall white s.
Proof.
  induction s as [| c s IH]; [constructor |]. simpl.
  destruct (is_white_space c) eqn:E; [| discriminate].
  intros H. constructor; [exact E | apply IH, H].
Qed.

Lemma trimStart_snoc (s : text) (c : N) :
  is_white_space c = false -> trimStart (s ++ [c]) = trimStart s ++ [c].
Proof.
  intros Hc. induction s as [| x s IH]; simpl.
  - rewrite Hc. reflexivity.
  - destruct (is_white_space x); [exact IH | reflexivity].
Qed.

(** What [trim] leaves: the string between the white space at its two
    ends. *)
Lemma trim_split (s : text) :
  exists before after,
    s = before ++ trim s ++ after /\
    Forall white before /\ Forall white after /\
    match trim s with
    | [] => True
    | c :: _ => is_white_space c = false
    end /\
    match rev (trim s) with
    | [] => True
    | c :: _ => is_white_space c = false
    end.
Proof.
  destruct (trimStart_split s) as (before & Hs & Hbefore & Hhd).
  destruct (trimStart_split (rev (trimStart s)))
    as (after & Hr & Hafter & Hlast).
  unfold trim, trimEnd. set (t := trimStart s) in *.
  set (u := trimStart (rev t)) in *.
  assert (Ht : t = rev u ++ rev after).
  { rewrite <- rev_app_distr, <- Hr, rev_involutive. reflexivity. }
  exists before, (rev after). split; [rewrite <- Ht; exact Hs |].
  split; [exact Hbefore |].
  split; [apply Forall_rev; exact Hafter |].
  split; [| rewrite rev_involutive; exact Hlast].
  destruct (rev u) as [| c w] eqn:Eu; [exact I |].
  rewrite Ht in Hhd. exact Hhd.
Qed.

Lemma trim_fixed (s : text) :
  match s with [] => True | c :: _ => is_white_space c = false end ->
  match rev s with [] => True | c :: _ => is_white_space c = false end ->
  trim s = s.
Proof.
  intros Hhd Hlast. unfold trim, trimEnd.
  rewrite (trimStart_fixed s Hhd), (trimStart_fixed (rev s) Hlast).
  apply rev_involutive.
Qed.

(** X15: [handleCreate] calls [onCreate] unless the name is made of white
    space only; the name passed is what is left of the input between the
    white space at its two ends, it is not empty, it neither starts nor
    ends with white space, and [handleCreate] passes it on unchanged. *)
Theorem handleCreate_trimmed (folderName : text) :
  match handleCreate folderName with
  | Some name =>
      name <> [] /\
      (exists before after,
         folderName = before ++ name ++ after /\
         Forall white before /\ Forall white after) /\
      is_white_space (hd 0%N name) = false /\
      is_white_space (last name 0%N) = false /\
      handleCreate name = Some name
  | None => Forall white folderName
  end.
Proof.
  destruct (trim_split folderName)
    as (before & after & Hs & Hbefore & Hafter & Hhd & Hlast).
  unfold handleCreate at 1.
  destruct (trim folderName) as [| c name] eqn:E.
  - rewrite Hs. simpl. apply Forall_app. split; assumption.
  - split; [discriminate |].
    split; [exists before, after; repeat split; assumption |].
    split; [exact Hhd |].
    assert (Hl : is_white_space (last (c :: name) 0%N) = false).
    { destruct (rev (c :: name)) as [| x w] eqn:Er.
      - apply (f_equal (@List.length N)) in Er. rewrite length_rev in Er.
        discriminate.
      - apply (f_equal (@rev N)) in Er. rewrite rev_involutive in Er.
        rewrite Er. simpl. rewrite last_last. exact Hlast. }
    split; [exact Hl |].
    unfold handleCreate. rewrite (trim_fixed (c :: name) Hhd Hlast).
    reflexivity.
Qed.

(** *** The proposed name *)

Lemma of_ascii_app (s1 s2 : string) :
  of_ascii (s1 ++ s2) = of_ascii s1 ++ of_ascii s2.
Proof.
  unfold of_ascii. induction s1 as [| c s1 IH]; [reflexivity |].
  simpl. rewrite IH. reflexivity.
Qed.

Lemma append_assoc (s1 s2 s3 : string) :
  ((s1 ++ s2) ++ s3 = s1 ++ (s2 ++ s3))%string.
Proof.
  induction s1 as [| c s1 IH]; [reflexivity |]. simpl. rewrite IH.
  reflexivity.
Qed.

Lemma digit_not_white (z : Z) :
  is_white_space (N_of_ascii (Calendar.digit z)) = false.
Proof.
  unfold Calendar.digit.
  assert (H : (Z.to_nat (z mod 10) < 10)%nat).
  { pose proof (Z.mod_pos_bound z 10). lia. }
  destruct (Z.to_nat (z mod 10)) as [| [| [| [| [| [| [| [| [| [| k]]]]]]]]]];
    try reflexivity.
  lia.
Qed.

(** Below [10^21], [toFixed] with a fraction ends in a digit. *)
Lemma toFixed_last_digit (Number_toString : Q -> string) (q : Q) (d : nat) :
  Qabs q < inject_Z (10 ^ 21) ->
  exists (front : string) (z : Z),
    toFixed Number_toString (Fin q) (N.of_nat (S d)) =
    (front ++ String (Calendar.digit z) "")%string.
Proof.
  intros Hq. unfold toFixed.
  destruct (Qle_bool (inject_Z (10 ^ 21)) (Qabs q)) eqn:E.
  { apply Qle_bool_iff in E. lra. }
  assert (Ed : (N.of_nat (S d) =? 0)%N = false) by (apply N.eqb_neq; lia).
  rewrite Ed, Nnat.Nat2N.id. cbn [Calendar.decimal].
  set (n := toFixed_digits (N.of_nat (S d)) q).
  set (p := (10 ^ Z.of_N (N.of_nat (S d)))%Z).
  eexists ((if Qltb q 0 then "-" else "")
           ++ NilZero.string_of_uint (N.to_uint (Z.to_N (n / p)))
           ++ "." ++ Calendar.decimal d (n mod p / 10))%string, (n mod p)%Z.
  rewrite !append_assoc. reflexivity.
Qed.

(** X16: the name that the dialog proposes is accepted as it is, for any
    latitude and a finite longitude below [10^21]. *)
Theorem defaultName_accepted (Number_toString : Q -> string)
  (latitude : number) (longitude : Q)
  (below_exponent : Qabs longitude < inject_Z (10 ^ 21)) :
  handleCreate (defaultName Number_toString latitude (Fin longitude)) =
  Some (defaultName Number_toString latitude (Fin longitude)).
Proof.
  destruct (toFixed_last_digit Number_toString longitude 5 below_exponent)
    as (front & z & E).
  change (N.of_nat 6) with 6%N in E.
  unfold defaultName. rewrite E.
  set (s := of_ascii _).
  assert (Hhd : exists rest, s = 76%N :: rest).
  { unfold s. eexists. cbn [String.append of_ascii list_ascii_of_string map].
    reflexivity. }
  assert (Hlast : exists w, rev s = N_of_ascii (Calendar.digit z) :: w).
  { unfold s. rewrite <- !append_assoc, of_ascii_app.
    rewrite rev_app_distr. eexists. reflexivity. }
  destruct Hhd as (rest & Hs). destruct Hlast as (w & Hr).
  assert (Htrim : trim s = s).
  { apply trim_fixed.
    - rewrite Hs. reflexivity.
    - rewrite Hr. apply digit_not_white. }
  unfold handleCreate. rewrite Htrim, Hs. reflexivity.
Qed.

Lemma defaultName_accepted_witness :
  Qabs 2.25 < inject_Z (10 ^ 21) /\
  handleCreate (defaultName (fun _ => "1e+21"%string) (Fin 41.5) (Fin 2.25))
  = Some (of_ascii "Location: 41.500000, 2.250000").
Proof.
  assert (H : Qabs 2.25 < inject_Z (10 ^ 21)) by reflexivity.
  split; [exact H |].
  rewrite (defaultName_accepted (fun _ => "1e+21"%string) (Fin 41.5) 2.25 H).
  reflexivity.
Defined.

End LocationFacts.
